(** * Model-based curation: a shallow embedding of
      [spikeinterface/curation/model_based_curation.py]

    The module applies a trained scikit-learn pipeline to the per-unit
    metrics of a sorting analyzer, writes the predicted labels and their
    confidence on the sorting object, and optionally exports them for Phy.

    The Python code is effectful: it mutates the sorting object, emits
    warnings, raises exceptions and writes a file.  It is embedded as
    functions in a state-and-exception monad over an explicit [World]; a
    raised exception keeps the state reached so far, as in Python. *)

From Stdlib Require Import ZArith QArith Ascii String List.
From stdpp Require Import base option list strings pretty gmap.

Open Scope Z_scope.
Open Scope string_scope.
Open Scope list_scope.
Open Scope stdpp_scope.

(** ** Python values *)

(** Values that [json.load] returns and that metric extensions keep as
    parameters.  A [PDict] lists its items in insertion order; its keys are
    strings, as in JSON. *)
#[warnings="-register-all"]
Inductive pyval : Type :=
| PNone
| PBool (b : bool)
| PInt (z : Z)
| PFloat (q : Q)
| PStr (s : string)
| PList (l : list pyval)
| PTuple (l : list pyval)
| PDict (d : list (string * pyval)).

(** Unit identifiers are integers or strings. *)
Inductive key : Type :=
| KInt (z : Z)
| KStr (s : string).

#[global] Instance key_eq_dec : EqDecision key.
Proof. solve_decision. Defined.

(** ** Exceptions *)

(** A positional argument of an exception.  [Missing s] stands for the
    f-string [f"Missing metrics: {s}"], kept with the set it formats. *)
Inductive arg : Type :=
| Str (s : string)
| Missing (s : gset string).

Inductive exn : Type :=
| ValueError (args : list arg)
| AssertionError (msg : string)
| KeyError (k : string)
| TypeError
| AttributeError
| IOError (path : string).

Inductive outcome (A : Type) : Type :=
| Raise (e : exn)
| Return (a : A).
Arguments Raise {A} e.
Arguments Return {A} a.

(** ** Tables *)

(** A cell of a metrics table: a float, with its special values. *)
Inductive cell : Type :=
| Num (q : Q)
| PosInf
| NegInf
| NaN.

(** A pandas DataFrame: column names and, per row, the index entry and the
    values of the row in column order. *)
Record DataFrame : Type := {
  columns : list string;
  rows : list (key * list cell)
}.

(** [df.index] *)
Definition index (df : DataFrame) : list key := (rows df).*1.

(** [df.shape[0]] *)
Definition shape0 (df : DataFrame) : nat := length (rows df).

(** [df.loc[df.index.isin(ids)]]: the rows whose index entry is in [ids]. *)
Definition loc_isin (df : DataFrame) (ids : list key) : DataFrame :=
  {| columns := columns df;
     rows := filter (λ r : key * list cell, r.1 ∈ ids) (rows df) |}.

(** The values of a row under the columns called [c], left to right. *)
Fixpoint pick (c : string) (cols : list string) (vals : list cell) : list cell :=
  match cols, vals with
  | c' :: cols', v :: vals' =>
      if decide (c' = c) then v :: pick c cols' vals' else pick c cols' vals'
  | _, _ => []
  end.

(** [df[names]]: for each requested name, every column of that name, in
    the order requested; [KeyError] when a name is no column of [df]. *)
Definition getitem_columns (df : DataFrame) (names : list string) : outcome DataFrame :=
  match list_find (λ c, c ∉ columns df) names with
  | Some (_, c) => Raise (KeyError c)
  | None =>
      Return {| columns := names ≫= (λ c, filter (λ c', c' = c) (columns df));
                rows := (λ r : key * list cell,
                          (r.1, names ≫= (λ c, pick c (columns df) r.2))) <$> rows df |}
  end.

(** [df.map(f)] *)
Definition df_map (f : cell → cell) (df : DataFrame) : DataFrame :=
  {| columns := columns df;
     rows := (λ r : key * list cell, (r.1, f <$> r.2)) <$> rows df |}.

(** [np.isinf] *)
Definition np_isinf (x : cell) : bool :=
  match x with
  | PosInf | NegInf => true
  | _ => false
  end.

(** ** The classifier *)

(** A row of [predict_proba]: one probability per class.  A fitted
    classifier has at least one class, so the row has a first entry. *)
Record proba_row : Type := {
  first_class : Q;
  other_classes : list Q
}.

Definition classes (r : proba_row) : list Q := first_class r :: other_classes r.

Definition Qmax2 (a b : Q) : Q := if Qle_bool a b then b else a.

(** [np.max] of one row. *)
Definition row_max (r : proba_row) : Q := foldl Qmax2 (first_class r) (other_classes r).

(** The scikit-learn pipeline, as far as the module uses it.  The predicted
    labels are integers.  Both operations are functions of the table they
    are given: a call that scikit-learn refuses with an exception of its
    own is not part of this model, which is about the runs in which both
    calls return. *)
Record Pipeline : Type := {
  feature_names_in_ : list string;
  predict : DataFrame → list Z;
  predict_proba : DataFrame → list proba_row
}.

(** ** The analyzer, the sorting and the file system *)

(** A unit property of the sorting: one value per unit. *)
Inductive property : Type :=
| Labels (l : list pyval)
| Floats (l : list Q).

(** Modelled from the spec: the sorting object, which is not part of this
    module.  It has a set of current units, named unit properties that
    [set_property] overwrites, and annotations that [get_annotation] reads. *)
Record Sorting : Type := {
  unit_ids : list key;
  properties : gmap string property;
  annotations : gmap string string
}.

(** Modelled from the spec: a metric extension of the analyzer, with the
    parameters it was computed with and the table of metrics it holds. *)
Record Extension : Type := {
  params : pyval;
  data : DataFrame
}.

(** Modelled from the spec: the part of the analyzer that this module only
    reads, its extensions by name.  The sorting it holds is mutable and
    lives in the [World]. *)
Record SortingAnalyzer : Type := {
  extensions : gmap string Extension
}.

(** Modelled from the spec: [sorting_analyzer.get_extension(name)], [None]
    when the analyzer has no extension of that name. *)
Definition get_extension (sa : SortingAnalyzer) (name : string) : option Extension :=
  extensions sa !! name.

(** The table [_export_to_phy] writes with [to_csv]. *)
Record Csv : Type := {
  sep : string;
  index_label : string;
  header : list string;
  body : list (key * (pyval * Q))
}.

Inductive File : Type :=
| SkopsFile (model : Pipeline)
| JsonFile (v : pyval)
| CsvFile (t : Csv)
| OtherFile.

(** The file system: the directories, the entry names of each directory in
    the order the system lists them, and the files by path. *)
Record FileSystem : Type := {
  dirs : gset string;
  listing : gmap string (list string);
  files : gmap string File
}.

Inductive method : Type := Predict | PredictProba.

(** Everything the module can change or observe changing. *)
Record World : Type := {
  sorting : Sorting;
  fs : FileSystem;
  warnings : list string;
  pipeline_calls : list (method * DataFrame)
}.

Definition set_sorting (s : Sorting) (w : World) : World :=
  {| sorting := s; fs := fs w; warnings := warnings w;
     pipeline_calls := pipeline_calls w |}.

Definition set_fs (f : FileSystem) (w : World) : World :=
  {| sorting := sorting w; fs := f; warnings := warnings w;
     pipeline_calls := pipeline_calls w |}.

(** ** The monad *)

Definition M (A : Type) : Type := World → outcome A * World.

#[global] Instance M_ret : MRet M := λ A a w, (Return a, w).

#[global] Instance M_bind : MBind M := λ A B f m w,
  match m w with
  | (Return a, w') => f a w'
  | (Raise e, w') => (Raise e, w')
  end.

(** [raise e] *)
Definition raise {A : Type} (e : exn) : M A := λ w, (Raise e, w).

(** A pure computation that may raise. *)
Definition lift {A : Type} (o : outcome A) : M A := λ w, (o, w).

(** [warnings.warn(msg)] *)
Definition warn (msg : string) : M unit := λ w,
  (Return tt,
   {| sorting := sorting w; fs := fs w; warnings := warnings w ++ [msg];
      pipeline_calls := pipeline_calls w |}).

(** [pipeline.predict(t)] and [pipeline.predict_proba(t)]; the call and the
    table it is given are recorded. *)
Definition call_predict (p : Pipeline) (t : DataFrame) : M (list Z) := λ w,
  (Return (predict p t),
   {| sorting := sorting w; fs := fs w; warnings := warnings w;
      pipeline_calls := pipeline_calls w ++ [(Predict, t)] |}).

Definition call_predict_proba (p : Pipeline) (t : DataFrame) : M (list proba_row) := λ w,
  (Return (predict_proba p t),
   {| sorting := sorting w; fs := fs w; warnings := warnings w;
      pipeline_calls := pipeline_calls w ++ [(PredictProba, t)] |}).

(** Modelled from the spec: [sorting.get_unit_ids()], the current units. *)
Definition get_unit_ids : M (list key) := λ w, (Return (unit_ids (sorting w)), w).

(** Modelled from the spec: [sorting.set_property(name, values)] overwrites
    the named property with the per-unit values. *)
Definition set_property (name : string) (values : property) : M unit := λ w,
  (Return tt,
   set_sorting {| unit_ids := unit_ids (sorting w);
                  properties := <[name := values]> (properties (sorting w));
                  annotations := annotations (sorting w) |} w).

(** Modelled from the spec: [sorting.get_annotation(name)], [None] when the
    sorting carries no such annotation. *)
Definition get_annotation (name : string) : M (option string) := λ w,
  (Return (annotations (sorting w) !! name), w).

(** [Path(p).is_dir()] and [Path(p).is_file()], for a path string [p]; for
    a path object [q] that prints as [p] these are [q.is_dir()] and
    [q.is_file()]. *)
Definition is_dir (p : string) : M bool := λ w,
  (Return (bool_decide (p ∈ dirs (fs w))), w).

Definition is_file (p : string) : M bool := λ w,
  (Return (bool_decide (is_Some (files (fs w) !! p))), w).

(** *** Paths *)

(** A path object of [pathlib], as on POSIX: its root, which is empty, "/"
    or "//", and the components after it. *)
Record PosixPath : Type := {
  root : string;
  components : list string
}.

(** The pieces of a string between its slashes. *)
Fixpoint split_slash (s : string) : list string :=
  match s with
  | EmptyString => [EmptyString]
  | String a s' =>
      if Ascii.eqb a "/" then EmptyString :: split_slash s'
      else match split_slash s' with
           | piece :: pieces => String a piece :: pieces
           | [] => [String a EmptyString]
           end
  end.

(** The root of a path string: exactly two leading slashes are kept, one
    or more than two make the root "/". *)
Definition root_of (s : string) : string :=
  match s with
  | String "/" (String "/" (String "/" _)) => "/"
  | String "/" (String "/" _) => "//"
  | String "/" _ => "/"
  | _ => ""
  end.

(** [Path(s)]: the pieces of [s], without the empty ones and the "." ones. *)
Definition Path (s : string) : PosixPath :=
  {| root := root_of s;
     components := filter (λ c, c ≠ "" ∧ c ≠ ".") (split_slash s) |}.

(** [str(p)], which is also what an f-string prints for [p]. *)
Definition str (p : PosixPath) : string :=
  match root p, components p with
  | EmptyString, [] => "."
  | r, cs => r +:+ String.concat "/" cs
  end.

(** [a / b]: an absolute [b] replaces [a]. *)
Definition truediv (a b : PosixPath) : PosixPath :=
  if decide (root b = "") then
    {| root := root a; components := components a ++ components b |}
  else b.

(** The entry [name] of the directory [p], as [glob] yields it. *)
Definition entry (p : PosixPath) (name : string) : PosixPath :=
  {| root := root p; components := components p ++ [name] |}.

(** What precedes the last slash of a path string, if it has a slash, and
    what follows it. *)
Fixpoint path_split (s : string) : option string * string :=
  match s with
  | EmptyString => (None, EmptyString)
  | String a s' =>
      match path_split s' with
      | (Some d, n) => (Some (String a d), n)
      | (None, n) =>
          if Ascii.eqb a "/" then (Some EmptyString, n) else (None, String a n)
      end
  end.

(** The directory in which the system looks up the last name of a path
    string: what precedes the last slash, the root when nothing does. *)
Definition dirname (s : string) : string :=
  match (path_split s).1 with
  | None => ""
  | Some EmptyString => "/"
  | Some d => d
  end.

Definition basename (s : string) : string := (path_split s).2.

(** Does [s] end with [suffix]? *)
Definition ends_with (suffix s : string) : bool :=
  let n := String.length s in
  let k := String.length suffix in
  (k <=? n)%nat && String.eqb (String.substring (n - k) k s) suffix.

(** [list(folder.glob("*.skops"))]: the entries of [folder] whose name ends
    in [.skops], as paths, in the order the system lists them. *)
Definition glob_skops (folder : PosixPath) : M (list PosixPath) := λ w,
  (Return (entry folder <$>
             filter (λ name, ends_with ".skops" name = true)
                    (default [] (listing (fs w) !! str folder))), w).

(** [skio.load(path, trusted=...)] *)
Definition skio_load (path : string) : M Pipeline := λ w,
  match files (fs w) !! path with
  | Some (SkopsFile model) => (Return model, w)
  | _ => (Raise (IOError path), w)
  end.

(** [json.load(open(path))] *)
Definition json_load (path : string) : M pyval := λ w,
  match files (fs w) !! path with
  | Some (JsonFile v) => (Return v, w)
  | _ => (Raise (IOError path), w)
  end.

(** [df.to_csv(path, sep=sep, index_label=index_label)]: the file at [path]
    then holds the table, and its directory lists its name, after the
    entries it had when the name is new. *)
Definition to_csv (t : Csv) (path : string) : M unit := λ w,
  let folder := dirname path in
  let name := basename path in
  let entries := default [] (listing (fs w) !! folder) in
  (Return tt,
   set_fs {| dirs := dirs (fs w);
             listing := if decide (name ∈ entries) then listing (fs w)
                        else <[folder := entries ++ [name]]> (listing (fs w));
             files := <[path := CsvFile t]> (files (fs w)) |} w).

(** ** Operations on Python values *)

(** [d[k]] for a dict with string keys. *)
Fixpoint dict_lookup (k : string) (d : list (string * pyval)) : option pyval :=
  match d with
  | [] => None
  | (k', v) :: d' => if decide (k' = k) then Some v else dict_lookup k d'
  end.

(** [v[k]] with a string [k]: the item of a dict, [KeyError] when the dict
    has no such key, [TypeError] when [v] is not a dict. *)
Definition py_getitem (v : pyval) (k : string) : outcome pyval :=
  match v with
  | PDict d =>
      match dict_lookup k d with
      | Some x => Return x
      | None => Raise (KeyError k)
      end
  | _ => Raise TypeError
  end.

(** [v[k1][k2]...] *)
Fixpoint py_getpath (v : pyval) (ks : list string) : outcome pyval :=
  match ks with
  | [] => Return v
  | k :: ks' =>
      match py_getitem v k with
      | Return x => py_getpath x ks'
      | Raise e => Raise e
      end
  end.

(** Python's [None] is the absent value of an optional one. *)
Definition optional (v : pyval) : option pyval :=
  match v with
  | PNone => None
  | _ => Some v
  end.

(** [v.items()]: only a dict has it. *)
Definition py_items (v : pyval) : outcome (list (string * pyval)) :=
  match v with
  | PDict d => Return d
  | _ => Raise AttributeError
  end.

(** The library operations the module calls and that are taken as given:
    [json.dumps], Python's [==] on parameter values, [int] of a string
    ([None] when it raises), numpy's cast of a cell to [float32], and
    [pd.concat(..., axis=1)] of the two optional metric tables. *)
Class PyLib : Type := {
  json_dumps : pyval → string;
  py_eq : pyval → pyval → bool;
  py_int : string → option Z;
  astype_float32 : cell → cell;
  pd_concat : option DataFrame → option DataFrame → outcome DataFrame
}.

(** A Python dict with unit identifiers as keys, in insertion order:
    assigning to a key that is present keeps its place. *)
Fixpoint dict_set {V : Type} (k : key) (v : V) (d : list (key * V)) : list (key * V) :=
  match d with
  | [] => [(k, v)]
  | (k', v') :: d' => if decide (k' = k) then (k, v) :: d' else (k', v') :: dict_set k v d'
  end.

Fixpoint dict_get {V : Type} (k : key) (d : list (key * V)) : option V :=
  match d with
  | [] => None
  | (k', v') :: d' => if decide (k' = k) then Some v' else dict_get k d'
  end.

(** ** The module *)

Record ModelBasedClassification : Type := {
  sorting_analyzer : SortingAnalyzer;
  pipeline : Pipeline;
  required_metrics : list string
}.

(** [ModelBasedClassification.__init__]; the check that the pipeline is a
    scikit-learn Pipeline is its type here. *)
Definition __init__ (sa : SortingAnalyzer) (p : Pipeline) : ModelBasedClassification :=
  {| sorting_analyzer := sa; pipeline := p; required_metrics := feature_names_in_ p |}.

(** Modelled from the spec: [try_to_get_metrics_from_analyzer], which pulls
    the quality and the template metric tables from the analyzer; a table
    is [None] when the analyzer has no such extension. *)
Definition try_to_get_metrics_from_analyzer (sa : SortingAnalyzer)
  : option DataFrame * option DataFrame :=
  (data <$> get_extension sa "quality_metrics",
   data <$> get_extension sa "template_metrics").

(** The texts of the errors and warnings, as the source has them.  The
    last but one is not an f-string in the source: its braces are part of
    the text. *)
Definition no_units_msg : string := "No units present in sorting data".
Definition missing_metrics_msg : string :=
  "Input data does not contain all required metrics for classification".
Definition label_mismatch_msg : string :=
  "Labels in predictions do not match those in label_conversion".
Definition no_label_conversion_msg : string :=
  "Could not find `label_conversion` key in `pipeline_info.json` file".
Definition quality_mismatch_msg : string :=
  "Quality metrics params do not match those used to train pipeline. Check these in the 'pipeline_info.json' file.".
Definition template_mismatch_msg : string :=
  "Template metrics metrics params do not match those used to train pipeline. Check these in the 'model_info.json' file.".
Definition phy_folder_msg : string :=
  "Phy folder not found in sorting annotations, or is not a directory".
Definition several_skops_msg : string :=
  "There are more than 1 '.skops' file in folder {folder}. Selecting {skops_file}. You can specify the file using the 'model_name' argument.".
Definition no_model_info_msg : string :=
  "No 'model_info.json' file found in folder. No metadata can be checked.".

Section Module_.
Context `{PyLib}.

(** [_get_metrics_for_classification] *)
Definition _get_metrics_for_classification (self : ModelBasedClassification)
  : M DataFrame :=
  let '(quality_metrics, template_metrics) :=
    try_to_get_metrics_from_analyzer (sorting_analyzer self) in
  calculated_metrics ← lift (pd_concat quality_metrics template_metrics);
  ids ← get_unit_ids;
  let calculated_metrics := loc_isin calculated_metrics ids in
  if decide (shape0 calculated_metrics = 0%nat) then
    raise (ValueError [Str no_units_msg])
  else
    let required : gset string := list_to_set (required_metrics self) in
    let available : gset string := list_to_set (columns calculated_metrics) in
    if decide (required ⊆ available) then
      lift (getitem_columns calculated_metrics (required_metrics self))
    else
      raise (ValueError [Str missing_metrics_msg; Missing (required ∖ available)]).

(** [_check_params_for_classification] *)
Definition _check_params_for_classification (self : ModelBasedClassification)
  (pipeline_info : pyval) : M unit :=
  let quality_metrics_extension :=
    get_extension (sorting_analyzer self) "quality_metrics" in
  let template_metrics_extension :=
    get_extension (sorting_analyzer self) "template_metrics" in
  match quality_metrics_extension with
  | Some ext =>
      pipeline_quality_metrics_params ←
        lift (py_getpath pipeline_info
                ["metric_params"; "analyzer_0"; "quality_metric_params"; "qm_params"]);
      quality_metrics_params ← lift (py_getitem (params ext) "qm_params");
      if negb (String.eqb (json_dumps quality_metrics_params)
                          (json_dumps pipeline_quality_metrics_params))
      then warn quality_mismatch_msg
      else mret tt
  | None => mret tt
  end;;
  match template_metrics_extension with
  | Some ext =>
      pipeline_template_metrics_params ←
        lift (py_getpath pipeline_info
                ["metric_params"; "analyzer_0"; "template_metric_params"; "metrics_kwargs"]);
      template_metrics_params ← lift (py_getitem (params ext) "metrics_kwargs");
      if negb (py_eq template_metrics_params pipeline_template_metrics_params)
      then warn template_mismatch_msg
      else mret tt
  | None => mret tt
  end.

(** The loop of [predict_labels] that turns the string keys of the stored
    conversion into integers.  The flag says that [int] raised; the dict
    built so far stays. *)
Fixpoint int_keys (items : list (string * pyval)) (label_conversion : gmap Z pyval)
  : gmap Z pyval * bool :=
  match items with
  | [] => (label_conversion, false)
  | (k, value) :: items' =>
      match py_int k with
      | Some z => int_keys items' (<[z := value]> label_conversion)
      | None => (label_conversion, true)
      end
  end.

(** The [try] block of [predict_labels] that reads the conversion from the
    pipeline info: the value [label_conversion] has after it, and whether
    the [except] branch was taken. *)
Definition label_conversion_from_info (pipeline_info : pyval)
  : option (gmap Z pyval) * bool :=
  match py_getitem pipeline_info "label_conversion" with
  | Raise _ => (None, true)
  | Return string_label_conversion =>
      match py_items string_label_conversion with
      | Raise _ => (Some ∅, true)
      | Return items =>
          let '(label_conversion, failed) := int_keys items ∅ in
          (Some label_conversion, failed)
      end
  end.

(** [_export_to_phy] *)
Definition _export_to_phy (self : ModelBasedClassification)
  (classified_units : list (key * (pyval * Q))) : M unit :=
  let classified_df :=
    {| sep := String (Ascii.ascii_of_nat 9) EmptyString; index_label := "cluster_id";
       header := ["prediction"; "probability"]; body := classified_units |} in
  sorting_path ← get_annotation "phy_folder";
  match sorting_path with
  | None => raise (ValueError [Str phy_folder_msg])
  | Some sorting_path =>
      d ← is_dir sorting_path;
      if (d : bool) then to_csv classified_df (sorting_path +:+ "/cluster_prediction.tsv")
      else raise (ValueError [Str phy_folder_msg])
  end.

(** [predict_labels] *)
Definition predict_labels (self : ModelBasedClassification)
  (label_conversion : option (gmap Z pyval)) (input_data : option DataFrame)
  (export_to_phy : bool) (pipeline_info : option pyval)
  : M (list (key * (pyval * Q))) :=
  input_data ← match input_data with
               | None => _get_metrics_for_classification self
               | Some input_data => mret input_data
               end;
  match pipeline_info with
  | Some pipeline_info => _check_params_for_classification self pipeline_info
  | None => mret tt
  end;;
  label_conversion ← match pipeline_info, label_conversion with
                     | Some pipeline_info, None =>
                         let '(label_conversion, failed) :=
                           label_conversion_from_info pipeline_info in
                         (if failed then warn no_label_conversion_msg else mret tt);;
                         mret label_conversion
                     | _, _ => mret label_conversion
                     end;
  let input_data := df_map (λ x, if np_isinf x then NaN else x) input_data in
  let input_data := df_map astype_float32 input_data in
  predictions ← call_predict (pipeline self) input_data;
  probabilities ← call_predict_proba (pipeline self) input_data;
  let probabilities := row_max <$> probabilities in
  predictions ← match label_conversion with
                | Some label_conversion =>
                    if decide (Forall (λ label, is_Some (label_conversion !! label)) predictions)
                    then
                      match mapM (λ label, label_conversion !! label) predictions with
                      | Some converted => mret converted
                      | None => raise (KeyError "label")
                      end
                    else raise (ValueError [Str label_mismatch_msg])
                | None => mret (PInt <$> predictions)
                end;
  let classified_units :=
    foldl (λ (d : list (key * (pyval * Q))) (item : key * (pyval * Q)),
             dict_set item.1 item.2 d)
          [] (zip (index input_data) (zip predictions probabilities)) in
  set_property "label_prediction" (Labels predictions);;
  set_property "label_confidence" (Floats probabilities);;
  (if export_to_phy then _export_to_phy self classified_units else mret tt);;
  mret classified_units.

(** [_load_model_from_folder]; the metadata returned is optional, a file
    that holds [null] giving [None] as a missing file does. *)
Definition _load_model_from_folder (model_folder_path : string)
  (model_name : option string) : M (Pipeline * option pyval) :=
  let folder := Path model_folder_path in
  d ← is_dir (str folder);
  if negb d then
    raise (AssertionError ("The folder " +:+ str folder +:+ ", does not exist."))
  else
    skops_file ← match model_name with
                 | Some model_name =>
                     let skops_file :=
                       truediv (Path model_folder_path) (Path model_name) in
                     f ← is_file (str skops_file);
                     if (f : bool) then mret skops_file
                     else raise (AssertionError
                                   ("Model file " +:+ str skops_file +:+ " not found."))
                 | None =>
                     skops_files ← glob_skops folder;
                     match skops_files with
                     | [] =>
                         raise (AssertionError
                                  ("There are no '.skops' files in the folder "
                                     +:+ str folder))
                     | skops_file :: _ =>
                         (if decide (1 < length skops_files)%nat
                          then warn several_skops_msg else mret tt);;
                         mret skops_file
                     end
                 end;
    model ← skio_load (str skops_file);
    let model_info_path := truediv folder (Path "model_info.json") in
    f ← is_file (str model_info_path);
    if negb f then
      warn no_model_info_msg;;
      mret (model, None)
    else
      model_info ← json_load (str model_info_path);
      mret (model, optional model_info).

End Module_.

(** ** The entry point *)

Section Entry_point.
Context `{PyLib}.

(** The parameters of [_load_model_from_folder]; both default to [None]. *)
Definition load_model_parameters : list string :=
  ["model_folder_path"; "model_name"].

(** A call of [_load_model_from_folder] with keyword arguments only.  Python
    binds each keyword to the parameter of that name and raises [TypeError]
    for a keyword that names no parameter; a parameter without keyword takes
    its default.  With the folder left at [None], [Path(None)] raises
    [TypeError] as well. *)
Definition call_load_model (keywords : list (string * option string))
  : M (Pipeline * option pyval) :=
  match list_find (λ kw : string * option string, kw.1 ∉ load_model_parameters)
                  keywords with
  | Some _ => raise TypeError
  | None =>
      let arguments : gmap string (option string) := list_to_map keywords in
      match default None (arguments !! "model_folder_path") with
      | None => raise TypeError
      | Some model_folder_path =>
          _load_model_from_folder model_folder_path
            (default None (arguments !! "model_name"))
      end
  end.

(** [auto_label_units]; the check that the loaded object is a scikit-learn
    Pipeline is its type here. *)
Definition auto_label_units (sorting_analyzer : SortingAnalyzer)
  (model_folder_path : option string) (label_conversion : option (gmap Z pyval))
  (export_to_phy : bool) : M (list (key * (pyval * Q))) :=
  loaded ← call_load_model [("folder", model_folder_path)];
  let pipeline := loaded.1 in
  let pipeline_info := loaded.2 in
  let model_based_classification := __init__ sorting_analyzer pipeline in
  predict_labels model_based_classification label_conversion None export_to_phy
    pipeline_info.

End Entry_point.

(** ** Notions used to state the properties *)

Section Notions.
Context `{PyLib}.

(** The table [predict_labels] hands to the pipeline for the input [d]:
    infinite values replaced by NaN, then cast to [float32]. *)
Definition sanitize (d : DataFrame) : DataFrame :=
  df_map astype_float32 (df_map (λ x, if np_isinf x then NaN else x) d).

(** The cell [ct] is what the pipeline is given for the cell [cd] of the
    metrics table: the cast to [float32] of a value that is not infinite,
    namely of [cd], or of NaN when [cd] is infinite. *)
Definition sanitized_cell (ct cd : cell) : Prop :=
  ∃ x, ct = astype_float32 x ∧ np_isinf x = false ∧
       x = if np_isinf cd then NaN else cd.

(** The table [t] is the table [d] with every cell sanitized: the same
    columns, the same units in the same order, and cell by cell the
    sanitized value. *)
Definition sanitized_table (t d : DataFrame) : Prop :=
  columns t = columns d ∧
  Forall2 (λ rt rd : key * list cell,
             rt.1 = rd.1 ∧ Forall2 sanitized_cell rt.2 rd.2)
          (rows t) (rows d).

(** Every row of the table has one value per column. *)
Definition rectangular (d : DataFrame) : Prop :=
  Forall (λ r : key * list cell, length r.2 = length (columns d)) (rows d).

(** The conversion in effect in [predict_labels]: the explicit one, else the
    one read from the pipeline info, else none. *)
Definition conversion_in_effect (label_conversion : option (gmap Z pyval))
  (pipeline_info : option pyval) : option (gmap Z pyval) :=
  match label_conversion, pipeline_info with
  | Some m, _ => Some m
  | None, Some info => (label_conversion_from_info info).1
  | None, None => None
  end.

(** The labels of the units for the raw predictions [raw]: substituted
    through the conversion in effect, [None] when a raw label is not one of
    its keys; the raw labels themselves without a conversion. *)
Definition final_labels (conversion : option (gmap Z pyval)) (raw : list Z)
  : option (list pyval) :=
  match conversion with
  | Some m => mapM (λ label, m !! label) raw
  | None => Some (PInt <$> raw)
  end.

(** The dict [{unit_id: (prediction, probability)}] of [predict_labels]. *)
Definition classified (ids : list key) (labels : list pyval) (probabilities : list Q)
  : list (key * (pyval * Q)) :=
  foldl (λ (d : list (key * (pyval * Q))) (item : key * (pyval * Q)),
           dict_set item.1 item.2 d)
        [] (zip ids (zip labels probabilities)).

(** [d] is the metrics table [predict_labels] starts from in the world [w]:
    the caller's, or the one assembled from the analyzer. *)
Definition acquired (self : ModelBasedClassification) (input_data : option DataFrame)
  (w : World) (d : DataFrame) : Prop :=
  match input_data with
  | Some d0 => d = d0
  | None => _get_metrics_for_classification self w = (Return d, w)
  end.

(** The table merged from the analyzer's metric tables. *)
Definition merged (self : ModelBasedClassification) : outcome DataFrame :=
  pd_concat (try_to_get_metrics_from_analyzer (sorting_analyzer self)).1
            (try_to_get_metrics_from_analyzer (sorting_analyzer self)).2.

Definition quality_path : list string :=
  ["metric_params"; "analyzer_0"; "quality_metric_params"; "qm_params"].
Definition template_path : list string :=
  ["metric_params"; "analyzer_0"; "template_metric_params"; "metrics_kwargs"].

(** The worlds [w] and [w'] differ by the warnings [ws] only. *)
Definition only_warns (ws : list string) (w w' : World) : Prop :=
  sorting w' = sorting w ∧ fs w' = fs w ∧
  pipeline_calls w' = pipeline_calls w ∧ warnings w' = warnings w ++ ws.

(** The training parameters at [path] of the metadata and the current
    parameters [name] of the extension are both there, for an extension
    the analyzer has. *)
Definition params_available (info : pyval) (ext : option Extension)
  (path : list string) (name : string) : Prop :=
  match ext with
  | None => True
  | Some ext =>
      (∃ trained, py_getpath info path = Return trained) ∧
      (∃ current, py_getitem (params ext) name = Return current)
  end.

(** The quality-metric parameters of the analyzer differ from the training
    ones, as serialized by [json.dumps]. *)
Definition quality_mismatch (self : ModelBasedClassification) (info : pyval) : Prop :=
  ∃ ext trained current,
    get_extension (sorting_analyzer self) "quality_metrics" = Some ext ∧
    py_getpath info quality_path = Return trained ∧
    py_getitem (params ext) "qm_params" = Return current ∧
    json_dumps current ≠ json_dumps trained.

(** The template-metric parameters of the analyzer differ from the training
    ones, as compared by [!=]. *)
Definition template_mismatch (self : ModelBasedClassification) (info : pyval) : Prop :=
  ∃ ext trained current,
    get_extension (sorting_analyzer self) "template_metrics" = Some ext ∧
    py_getpath info template_path = Return trained ∧
    py_getitem (params ext) "metrics_kwargs" = Return current ∧
    py_eq current trained = false.

(** The sorting after both properties were set. *)
Definition with_predictions (s : Sorting) (labels : list pyval) (probabilities : list Q)
  : Sorting :=
  {| unit_ids := unit_ids s;
     properties := <["label_confidence" := Floats probabilities]>
                     (<["label_prediction" := Labels labels]> (properties s));
     annotations := annotations s |}.

(** The warnings a run has added to those of [w]. *)
Definition new_warnings (w w' : World) : list string :=
  drop (length (warnings w)) (warnings w').

(** The warning of the step of [predict_labels] that settles the
    conversion. *)
Definition conversion_warnings (label_conversion : option (gmap Z pyval))
  (pipeline_info : option pyval) : list string :=
  match label_conversion, pipeline_info with
  | None, Some info =>
      if (label_conversion_from_info info).2 then [no_label_conversion_msg] else []
  | _, _ => []
  end.

(** The names of the artifact files of a folder, in the order listed. *)
Definition skops_names (folder : string) (w : World) : list string :=
  filter (λ name, ends_with ".skops" name = true)
         (default [] (listing (fs w) !! folder)).

End Notions.

(** Does [needle] occur in [s]? *)
Fixpoint occurs_in (needle s : string) : bool :=
  String.prefix needle s ||
  match s with
  | EmptyString => false
  | String _ s' => occurs_in needle s'
  end.

(** ** Concrete inputs *)

Module Example.

(** A decimal reading of [int]: an optional sign and ASCII digits. *)
Definition digit (a : ascii) : option Z :=
  let n := Z.of_nat (nat_of_ascii a) in
  if ((48 <=? n)%Z && (n <=? 57)%Z)%bool then Some (n - 48) else None.

Fixpoint digits (acc : Z) (s : string) : option Z :=
  match s with
  | EmptyString => Some acc
  | String a s' =>
      match digit a with
      | Some d => digits (10 * acc + d) s'
      | None => None
      end
  end.

Definition decimal (s : string) : option Z :=
  match s with
  | EmptyString => None
  | String "-"%char (String a s1) => Z.opp <$> digits 0 (String a s1)
  | String "+"%char (String a s1) => digits 0 (String a s1)
  | _ => digits 0 s
  end.

(** A serializer in the manner of [json.dumps]: a tuple is written as a
    list.  Floats are written as fractions and strings are not escaped. *)
Fixpoint dumps (v : pyval) : string :=
  match v with
  | PNone => "null"
  | PBool true => "true"
  | PBool false => "false"
  | PInt z => pretty z
  | PFloat q => pretty (Qnum q) +:+ "/" +:+ pretty (Zpos (Qden q))
  | PStr s => "'" +:+ s +:+ "'"
  | PList l | PTuple l =>
      "[" +:+ (fix go (l : list pyval) : string :=
                 match l with
                 | [] => ""
                 | [x] => dumps x
                 | x :: l' => dumps x +:+ ", " +:+ go l'
                 end) l +:+ "]"
  | PDict d =>
      "{" +:+ (fix go (d : list (string * pyval)) : string :=
                 match d with
                 | [] => ""
                 | [(k, x)] => "'" +:+ k +:+ "': " +:+ dumps x
                 | (k, x) :: d' => "'" +:+ k +:+ "': " +:+ dumps x +:+ ", " +:+ go d'
                 end) d +:+ "}"
  end.

(** Structural equality of values, a tuple being different from a list. *)
Fixpoint same (a b : pyval) : bool :=
  match a, b with
  | PNone, PNone => true
  | PBool x, PBool y => Bool.eqb x y
  | PInt x, PInt y => (x =? y)%Z
  | PFloat x, PFloat y => Qeq_bool x y
  | PStr x, PStr y => String.eqb x y
  | PList x, PList y | PTuple x, PTuple y =>
      (fix go (x y : list pyval) : bool :=
         match x, y with
         | [], [] => true
         | u :: x', v :: y' => same u v && go x' y'
         | _, _ => false
         end) x y
  | PDict x, PDict y =>
      (fix go (x y : list (string * pyval)) : bool :=
         match x, y with
         | [], [] => true
         | (k, u) :: x', (k', v) :: y' => String.eqb k k' && same u v && go x' y'
         | _, _ => false
         end) x y
  | _, _ => false
  end.

(** The two tables side by side, for tables over the same units: the rows
    of the first, each extended with the row of that unit in the second. *)
Definition concat (a b : option DataFrame) : outcome DataFrame :=
  match a, b with
  | None, None => Raise (ValueError [Str "All objects passed were None"])
  | Some a, None => Return a
  | None, Some b => Return b
  | Some a, Some b =>
      Return {| columns := columns a ++ columns b;
                rows := (λ r : key * list cell,
                           (r.1, r.2 ++ default (replicate (length (columns b)) NaN)
                                                (dict_get r.1 (rows b)))) <$> rows a |}
  end.

Definition lib : PyLib := {|
  json_dumps := dumps;
  py_eq := same;
  py_int := decimal;
  astype_float32 := λ x, x;
  pd_concat := concat
|}.

Definition table : DataFrame :=
  {| columns := ["a"; "b"];
     rows := [(KInt 0, [Num (1 # 2); PosInf]);
              (KInt 1, [Num 3; Num (1 # 4)]);
              (KInt 2, [NaN; Num 0])] |}.

Definition probabilities : list proba_row :=
  [ {| first_class := 9 # 10; other_classes := [1 # 10] |};
    {| first_class := 2 # 10; other_classes := [8 # 10] |};
    {| first_class := 6 # 10; other_classes := [4 # 10] |} ].

(** A model over the features [b], [a] that predicts 0, 1, 0. *)
Definition model : Pipeline :=
  {| feature_names_in_ := ["b"; "a"];
     predict := λ _, [0; 1; 0];
     predict_proba := λ _, probabilities |}.

(** A model that can output the label 2. *)
Definition model_with_2 : Pipeline :=
  {| feature_names_in_ := ["b"; "a"];
     predict := λ _, [0; 2; 1];
     predict_proba := λ _, probabilities |}.

(** A model that requires the features [a], [b] and [c]. *)
Definition model_abc : Pipeline :=
  {| feature_names_in_ := ["a"; "b"; "c"];
     predict := λ _, [0; 1; 0];
     predict_proba := λ _, probabilities |}.

Definition quality_params : pyval :=
  PDict [("qm_params", PDict [("presence_ratio", PDict [("bin_duration_s", PInt 60)])])].

Definition analyzer : SortingAnalyzer :=
  {| extensions := {[ "quality_metrics" := {| params := quality_params; data := table |} ]} |}.

(** Metadata as the training writes it, with other quality parameters than
    the analyzer's. *)
Definition model_info : pyval :=
  PDict [("label_conversion", PDict [("0", PStr "noise"); ("1", PStr "good")]);
         ("metric_params",
          PDict [("analyzer_0",
                  PDict [("quality_metric_params",
                          PDict [("qm_params",
                                  PDict [("presence_ratio",
                                          PDict [("bin_duration_s", PInt 30)])])]);
                         ("template_metric_params",
                          PDict [("metrics_kwargs", PDict [])])])])].

Definition noise_good : gmap Z pyval := {[ 0 := PStr "noise"; 1 := PStr "good" ]}.

Definition no_files : FileSystem := {| dirs := ∅; listing := ∅; files := ∅ |}.

(** A sorting with the units 0, 1, 2, no property and no annotation. *)
Definition world0 : World :=
  {| sorting := {| unit_ids := [KInt 0; KInt 1; KInt 2];
                   properties := ∅; annotations := ∅ |};
     fs := no_files; warnings := []; pipeline_calls := [] |}.

(** A sorting whose only unit, 7, has no metrics. *)
Definition world_other_units : World :=
  {| sorting := {| unit_ids := [KInt 7]; properties := ∅; annotations := ∅ |};
     fs := no_files; warnings := []; pipeline_calls := [] |}.

(** A sorting annotated with the existing Phy folder [phy]. *)
Definition world_phy : World :=
  {| sorting := {| unit_ids := [KInt 0; KInt 1; KInt 2]; properties := ∅;
                   annotations := {[ "phy_folder" := "phy" ]} |};
     fs := {| dirs := {[ "phy" ]}; listing := ∅; files := ∅ |};
     warnings := []; pipeline_calls := [] |}.

(** A sorting annotated with a Phy folder that does not exist. *)
Definition world_phy_missing : World :=
  {| sorting := {| unit_ids := [KInt 0; KInt 1; KInt 2]; properties := ∅;
                   annotations := {[ "phy_folder" := "gone" ]} |};
     fs := no_files; warnings := []; pipeline_calls := [] |}.

(** A model folder with two artifact files and no metadata. *)
Definition world_two_models : World :=
  {| sorting := {| unit_ids := []; properties := ∅; annotations := ∅ |};
     fs := {| dirs := {[ "models" ]};
              listing := {[ "models" := ["a.skops"; "notes.txt"; "b.skops"] ]};
              files := {[ "models/a.skops" := SkopsFile model;
                          "models/notes.txt" := OtherFile;
                          "models/b.skops" := SkopsFile model_abc ]} |};
     warnings := []; pipeline_calls := [] |}.

(** A model folder without artifact file. *)
Definition world_no_model : World :=
  {| sorting := {| unit_ids := []; properties := ∅; annotations := ∅ |};
     fs := {| dirs := {[ "models" ]};
              listing := {[ "models" := ["notes.txt"] ]};
              files := {[ "models/notes.txt" := OtherFile ]} |};
     warnings := []; pipeline_calls := [] |}.

Definition units : list (key * (pyval * Q)) :=
  [(KInt 0, (PStr "noise", 9 # 10)); (KInt 1, (PStr "good", 8 # 10))].

(** A table in which the unit 0 has two rows. *)
Definition table_twice : DataFrame :=
  {| columns := ["a"; "b"];
     rows := [(KInt 0, [Num (1 # 2); PosInf]);
              (KInt 1, [Num 3; Num (1 # 4)]);
              (KInt 0, [NaN; Num 0])] |}.

(** Metadata whose stored conversion is a list, not a dict. *)
Definition model_info_list : pyval :=
  PDict [("label_conversion", PList [PStr "noise"; PStr "good"])].

(** Metadata without stored conversion. *)
Definition model_info_bare : pyval := PDict [("trained", PBool true)].

(** A model folder with one artifact file and its metadata. *)
Definition world_one_model : World :=
  {| sorting := {| unit_ids := [KInt 0; KInt 1; KInt 2];
                   properties := ∅; annotations := ∅ |};
     fs := {| dirs := {[ "models" ]};
              listing := {[ "models" := ["model_info.json"; "best.skops"] ]};
              files := {[ "models/best.skops" := SkopsFile model;
                          "models/model_info.json" := JsonFile model_info ]} |};
     warnings := []; pipeline_calls := [] |}.

(** A model folder whose metadata file holds [null], and an artifact file
    kept in another place. *)
Definition world_null_info : World :=
  {| sorting := {| unit_ids := [KInt 0; KInt 1; KInt 2];
                   properties := ∅; annotations := ∅ |};
     fs := {| dirs := {[ "models" ]};
              listing := {[ "models" := ["model_info.json"; "best.skops"] ]};
              files := {[ "models/best.skops" := SkopsFile model;
                          "models/model_info.json" := JsonFile PNone;
                          "/store/other.skops" := SkopsFile model_abc ]} |};
     warnings := []; pipeline_calls := [] |}.

(** An analyzer without metric extension. *)
Definition analyzer_bare : SortingAnalyzer := {| extensions := ∅ |}.

(** Metadata whose stored conversion has a key that is no integer. *)
Definition model_info_bad_key : pyval :=
  PDict [("label_conversion",
          PDict [("0", PStr "noise"); ("x", PStr "good"); ("1", PStr "mua")])].

End Example.

(** * Properties *)

Section Properties.
Context `{PyLib}.

(** Unfolds the monad and its primitive operations. *)
Ltac run :=
  unfold mbind, M_bind, mret, M_ret, raise, lift, warn, call_predict,
    call_predict_proba, set_property, get_unit_ids, get_annotation, is_dir,
    is_file, to_csv, glob_skops, skio_load, json_load in *.

(** *** The maximum of a row *)

Lemma Qmax2_cases (a b : Q) : Qmax2 a b = a ∨ Qmax2 a b = b.
Proof. unfold Qmax2. destruct (Qle_bool a b); auto. Qed.

Lemma Qmax2_ge_l (a b : Q) : (a <= Qmax2 a b)%Q.
Proof.
  unfold Qmax2. destruct (Qle_bool a b) eqn:E.
  - by apply Qle_bool_iff.
  - apply Qle_refl.
Qed.

Lemma Qmax2_ge_r (a b : Q) : (b <= Qmax2 a b)%Q.
Proof.
  unfold Qmax2. destruct (Qle_bool a b) eqn:E.
  - apply Qle_refl.
  - apply Qlt_le_weak, Qnot_le_lt. intros Hle.
    apply Qle_bool_iff in Hle. congruence.
Qed.

Lemma foldl_Qmax2_in (l : list Q) (a : Q) : foldl Qmax2 a l ∈ a :: l.
Proof.
  revert a. induction l as [|b l IHl]; intros a; simpl.
  - apply elem_of_cons; by left.
  - destruct (elem_of_cons l (foldl Qmax2 (Qmax2 a b) l) (Qmax2 a b)) as [Hc _].
    destruct (Hc (IHl _)) as [E|Hin].
    + rewrite E. destruct (Qmax2_cases a b) as [->| ->]; set_solver.
    + set_solver.
Qed.

Lemma foldl_Qmax2_ge (l : list Q) (a x : Q) :
  x ∈ a :: l → (x <= foldl Qmax2 a l)%Q.
Proof.
  revert a x. induction l as [|b l IHl]; intros a x Hx; simpl.
  - apply list_elem_of_singleton in Hx as ->. apply Qle_refl.
  - apply elem_of_cons in Hx as [->|Hx].
    + eapply Qle_trans; [apply (Qmax2_ge_l _ b)|]. apply IHl. by left.
    + apply elem_of_cons in Hx as [->|Hx].
      * eapply Qle_trans; [apply (Qmax2_ge_r a)|]. apply IHl. by left.
      * apply IHl. by right.
Qed.

(** [row_max] is a probability of the row and no probability of the row
    exceeds it. *)
Lemma row_max_is_maximum (r : proba_row) :
  row_max r ∈ classes r ∧ ∀ x, x ∈ classes r → (x <= row_max r)%Q.
Proof.
  split; [apply foldl_Qmax2_in|]. intros x. apply foldl_Qmax2_ge.
Qed.

(** *** Tables *)

Lemma df_map_index f d : index (df_map f d) = index d.
Proof.
  unfold index, df_map; simpl. rewrite <- list_fmap_compose.
  by apply list_fmap_ext.
Qed.

Lemma sanitize_index d : index (sanitize d) = index d.
Proof. unfold sanitize. by rewrite !df_map_index. Qed.

Lemma filter_eq_absent (c : string) (cols : list string) :
  c ∉ cols → filter (λ c', c' = c) cols = [].
Proof.
  induction cols as [|x l IHl]; intros Hc; [done|].
  rewrite filter_cons. case_decide as E.
  - subst x. destruct Hc. by left.
  - apply IHl. intros Hin. apply Hc. by right.
Qed.

Lemma filter_eq_present (c : string) (cols : list string) :
  NoDup cols → c ∈ cols → filter (λ c', c' = c) cols = [c].
Proof.
  induction 1 as [|x l Hx Hl IHl]; intros Hc; [by apply elem_of_nil in Hc|].
  rewrite filter_cons. case_decide as E.
  - subst x. f_equal. by apply filter_eq_absent.
  - apply elem_of_cons in Hc as [->|Hc]; [done|]. by apply IHl.
Qed.

(** Selecting present names from distinct columns yields exactly the
    names, in the order asked. *)
Lemma getitem_columns_exact (d : DataFrame) (names : list string) :
  NoDup (columns d) → Forall (λ c, c ∈ columns d) names →
  ∃ t, getitem_columns d names = Return t ∧ columns t = names ∧ index t = index d.
Proof.
  intros Hnd Hall. unfold getitem_columns.
  destruct (list_find _ names) as [[i c]|] eqn:Hf.
  - apply list_find_Some in Hf as (Hi & Hc & _).
    rewrite Forall_forall in Hall. destruct Hc. apply Hall.
    by eapply list_elem_of_lookup_2.
  - eexists; split; [done|]. split; simpl.
    + clear Hf. induction Hall as [|c l Hc _ IH]; [done|].
      rewrite bind_cons, IH. by rewrite filter_eq_present.
    + unfold index; simpl. rewrite <- list_fmap_compose. by apply list_fmap_ext.
Qed.

Lemma Forall2_compose {A B C : Type} (P : A → B → Prop) (Q : B → C → Prop)
  (R : A → C → Prop) (l : list A) (k : list B) (j : list C) :
  (∀ x y z, P x y → Q y z → R x z) →
  Forall2 P l k → Forall2 Q k j → Forall2 R l j.
Proof.
  intros HR HP. revert j.
  induction HP; intros j HQ; inversion HQ; subst; constructor; eauto.
Qed.

Lemma Forall2_compose_r {A B C : Type} (P : A → B → Prop) (Q : C → B → Prop)
  (R : A → C → Prop) (l : list A) (k : list B) (j : list C) :
  (∀ x y z, P x y → Q z y → R x z) →
  Forall2 P l k → Forall2 Q j k → Forall2 R l j.
Proof.
  intros HR HP. revert j.
  induction HP; intros j HQ; inversion HQ; subst; constructor; eauto.
Qed.

Lemma pick_absent (c : string) (cols : list string) (vals : list cell) :
  c ∉ cols → pick c cols vals = [].
Proof.
  revert vals. induction cols as [|c' cols IH]; intros vals Hc; [done|].
  destruct vals as [|v vals]; [done|]. simpl.
  rewrite decide_False.
  - apply IH. intros Hin. apply Hc. by right.
  - intros ->. apply Hc. by left.
Qed.

(** Under distinct column names a name selects one value of a row, the one
    at the place of the column of that name. *)
Lemma pick_at (c : string) (cols : list string) (vals : list cell) (k : nat)
  (x : cell) :
  NoDup cols → cols !! k = Some c → vals !! k = Some x → pick c cols vals = [x].
Proof.
  intros Hnd. revert vals k.
  induction Hnd as [|c' cols Hc' Hnd IH]; intros vals k Hc Hx; [done|].
  destruct vals as [|v vals]; [done|]. simpl.
  destruct k as [|k]; simpl in Hc, Hx.
  - simplify_eq. rewrite decide_True by done. f_equal. by apply pick_absent.
  - rewrite decide_False; [by eapply IH|].
    intros ->. apply Hc'. by eapply list_elem_of_lookup_2.
Qed.

Lemma pick_names (names cols : list string) (vals : list cell) :
  NoDup cols → length vals = length cols → Forall (λ c, c ∈ cols) names →
  Forall2 (λ c x, ∀ k, cols !! k = Some c → vals !! k = Some x)
          names (names ≫= (λ c, pick c cols vals)).
Proof.
  intros Hnd Hlen Hall. induction Hall as [|c names Hc _ IH]; [constructor|].
  rewrite bind_cons.
  apply list_elem_of_lookup_1 in Hc as [k Hk].
  destruct (lookup_lt_is_Some_2 vals k) as [x Hx].
  { rewrite Hlen. by eapply lookup_lt_Some. }
  rewrite (pick_at c cols vals k x Hnd Hk Hx). simpl. constructor; [|done].
  intros k' Hk'. by rewrite (NoDup_lookup _ _ _ _ Hnd Hk' Hk).
Qed.

Lemma loc_isin_rectangular d ids : rectangular d → rectangular (loc_isin d ids).
Proof.
  unfold rectangular, loc_isin; simpl. rewrite !Forall_forall.
  intros Hall r [_ Hr]%list_elem_of_filter. by apply Hall.
Qed.

(** Selecting columns from a table with distinct column names and one value
    per column: the result has the names asked as columns, the rows of the
    table, and in each row, under each name, the value the table has under
    the column of that name. *)
Lemma getitem_columns_cells d names t :
  NoDup (columns d) → rectangular d →
  getitem_columns d names = Return t →
  columns t = names ∧
  Forall2 (λ rt rd : key * list cell,
             rt.1 = rd.1 ∧
             Forall2 (λ c x, ∀ k, columns d !! k = Some c → rd.2 !! k = Some x)
                     names rt.2)
          (rows t) (rows d).
Proof.
  intros Hnd Hrect. unfold getitem_columns.
  destruct (list_find _ names) as [[i c]|] eqn:Hf; [done|].
  assert (Forall (λ c, c ∈ columns d) names) as Hall.
  { apply Forall_forall. intros c Hc.
    destruct (decide (c ∈ columns d)) as [?|Hno]; [done|].
    apply list_elem_of_lookup_1 in Hc as [i Hi].
    destruct (list_find_elem_of (λ c, c ∉ columns d) names c) as [? Hsome];
      [by eapply list_elem_of_lookup_2|done|congruence]. }
  intros [= <-]. simpl. split.
  - clear Hf. induction Hall as [|c l Hc _ IH]; [done|].
    rewrite bind_cons, IH. by rewrite filter_eq_present.
  - apply Forall2_fmap_l, Forall_Forall2_diag.
    unfold rectangular in Hrect. rewrite Forall_forall in Hrect.
    apply Forall_forall. intros r Hr. simpl. split; [done|].
    apply pick_names; [done| |done]. by apply Hrect.
Qed.

(** Sanitizing keeps the columns and the units and sanitizes every cell. *)
Lemma sanitize_sanitized d : sanitized_table (sanitize d) d.
Proof.
  unfold sanitized_table, sanitize, df_map; simpl. split; [done|].
  rewrite <- list_fmap_compose.
  apply Forall2_fmap_l, Forall_Forall2_diag, Forall_forall.
  intros [u cells] _. simpl. split; [done|].
  rewrite <- list_fmap_compose.
  apply Forall2_fmap_l, Forall_Forall2_diag, Forall_forall.
  intros c _. simpl. exists (if np_isinf c then NaN else c).
  split; [done|]. split; [|done]. by destruct c.
Qed.

(** *** Metric assembly *)

(** Assembling the metrics changes nothing. *)
Lemma get_metrics_world self w r w' :
  _get_metrics_for_classification self w = (r, w') → w' = w.
Proof.
  unfold _get_metrics_for_classification.
  destruct (try_to_get_metrics_from_analyzer _) as [qm tm]. run.
  destruct (pd_concat qm tm); [by inversion 1|]. simpl.
  repeat case_decide; by inversion 1.
Qed.

(** What assembly returns once the metric tables are merged. *)
Lemma get_metrics_merged self w m :
  merged self = Return m →
  _get_metrics_for_classification self w =
    let calculated := loc_isin m (unit_ids (sorting w)) in
    if decide (shape0 calculated = 0%nat) then
      (Raise (ValueError [Str no_units_msg]), w)
    else if decide ((list_to_set (required_metrics self) : gset string)
                      ⊆ list_to_set (columns calculated)) then
      (getitem_columns calculated (required_metrics self), w)
    else
      (Raise (ValueError [Str missing_metrics_msg;
                          Missing (list_to_set (required_metrics self)
                                     ∖ list_to_set (columns calculated))]), w).
Proof.
  unfold merged, _get_metrics_for_classification.
  destruct (try_to_get_metrics_from_analyzer _) as [qm tm]; simpl.
  intros ->. run. simpl. by repeat case_decide.
Qed.

(** C7: when the merged metrics table has no row left after restriction to
    the current units of the sorting, metric assembly fails with the
    "no units present" error. *)
Theorem no_units_present self w m :
  merged self = Return m →
  shape0 (loc_isin m (unit_ids (sorting w))) = 0%nat →
  _get_metrics_for_classification self w = (Raise (ValueError [Str no_units_msg]), w).
Proof.
  intros Hm Hrows. rewrite (get_metrics_merged _ _ _ Hm); simpl.
  by rewrite decide_True.
Qed.

(** C6, amended: when a row of the merged table belongs to a current unit
    and the required feature columns are not all columns of the merged
    table, metric assembly fails with the "missing metrics" error, and the
    set the error names holds exactly the required columns that are absent. *)
Theorem missing_metrics_named self w m :
  merged self = Return m →
  shape0 (loc_isin m (unit_ids (sorting w))) ≠ 0%nat →
  ¬ Forall (λ c, c ∈ columns m) (required_metrics self) →
  ∃ missing,
    _get_metrics_for_classification self w =
      (Raise (ValueError [Str missing_metrics_msg; Missing missing]), w) ∧
    ∀ c, c ∈ missing ↔ c ∈ required_metrics self ∧ c ∉ columns m.
Proof.
  intros Hm Hrows Hmiss. rewrite (get_metrics_merged _ _ _ Hm); simpl.
  rewrite decide_False by done. rewrite decide_False.
  - eexists; split; [done|]. intros c.
    rewrite elem_of_difference, !elem_of_list_to_set. done.
  - intros Hsub. apply Hmiss, Forall_forall. intros c Hc.
    apply (elem_of_list_to_set (C:=gset string)), Hsub,
      elem_of_list_to_set, Hc.
Qed.

(** Assembly succeeds with exactly the required columns when they are
    all present, the columns are distinct and a unit has metrics. *)
Lemma get_metrics_columns self w r w' :
  (∀ m, merged self = Return m → NoDup (columns m)) →
  _get_metrics_for_classification self w = (Return r, w') →
  columns r = required_metrics self.
Proof.
  intros Hnd Hget. destruct (merged self) as [e|m] eqn:Hm.
  - unfold merged in Hm. unfold _get_metrics_for_classification in Hget.
    destruct (try_to_get_metrics_from_analyzer _) as [qm tm]; simpl in Hm.
    run. rewrite Hm in Hget. simpl in Hget. congruence.
  - rewrite (get_metrics_merged _ _ _ Hm) in Hget; simpl in Hget.
    repeat case_decide; try done.
    destruct (getitem_columns_exact (loc_isin m (unit_ids (sorting w)))
                (required_metrics self)) as (t & Ht & Hc & _).
    + exact (Hnd m eq_refl).
    + apply Forall_forall. intros c Hc.
      apply (elem_of_list_to_set (C:=gset string)).
      match goal with Hs : _ ⊆ _ |- _ => apply Hs end.
      by apply elem_of_list_to_set.
    + simpl in *. rewrite Ht in Hget. by inversion Hget; subst.
Qed.

(** Assembly returns only when the metric tables were merged. *)
Lemma get_metrics_merge_returned self w d w' :
  _get_metrics_for_classification self w = (Return d, w') →
  ∃ m, merged self = Return m.
Proof.
  intros Hrun. destruct (merged self) as [e|m] eqn:Hm; [|by exists m].
  unfold merged in Hm. unfold _get_metrics_for_classification in Hrun.
  destruct (try_to_get_metrics_from_analyzer _) as [qm tm]; simpl in Hm.
  run. rewrite Hm in Hrun. simpl in Hrun. congruence.
Qed.

(** With distinct column names in the merged table and one value per
    column, assembly returns the required columns and, for every row of
    the merged table that belongs to a current unit, under each required
    column the value the merged table has under the column of that name. *)
Lemma get_metrics_cells self w d w' m :
  _get_metrics_for_classification self w = (Return d, w') →
  merged self = Return m → NoDup (columns m) → rectangular m →
  columns d = required_metrics self ∧
  Forall2 (λ rd rm : key * list cell,
             rd.1 = rm.1 ∧
             Forall2 (λ c x, ∀ k, columns m !! k = Some c → rm.2 !! k = Some x)
                     (required_metrics self) rd.2)
          (rows d)
          (filter (λ r : key * list cell, r.1 ∈ unit_ids (sorting w)) (rows m)).
Proof.
  intros Hget Hm Hnd Hrect.
  rewrite (get_metrics_merged _ _ _ Hm) in Hget; simpl in Hget.
  repeat case_decide; try done.
  injection Hget as Hget _.
  by apply (getitem_columns_cells (loc_isin m (unit_ids (sorting w))))
    in Hget; [|done|apply loc_isin_rectangular].
Qed.

(** *** The parameter check *)

Lemma only_warns_refl w : only_warns [] w w.
Proof. unfold only_warns. by rewrite app_nil_r. Qed.

Lemma only_warns_trans ws1 ws2 w1 w2 w3 :
  only_warns ws1 w1 w2 → only_warns ws2 w2 w3 → only_warns (ws1 ++ ws2) w1 w3.
Proof.
  unfold only_warns. intros (-> & -> & -> & E1) (-> & -> & -> & E2).
  by rewrite E2, E1, app_assoc.
Qed.

(** The check changes nothing but the warnings, whatever its outcome. *)
Lemma check_params_frame self info w r w' :
  _check_params_for_classification self info w = (r, w') →
  ∃ ws, only_warns ws w w'.
Proof.
  unfold _check_params_for_classification. run. intros Hrun.
  repeat (simpl in Hrun; case_match); simplify_eq;
    eexists; unfold only_warns; simpl; repeat split;
    try done; try (by rewrite app_nil_r); try (by rewrite <- app_assoc).
Qed.

(** *** Running [predict_labels] *)

Lemma bind_inv {A B : Type} (m : M A) (f : A → M B) w r w' :
  (m ≫= f) w = (r, w') →
  (∃ e, m w = (Raise e, w') ∧ r = Raise e) ∨
  (∃ a w1, m w = (Return a, w1) ∧ f a w1 = (r, w')).
Proof.
  unfold mbind, M_bind. destruct (m w) as [[e|a] w1]; intros Hrun.
  - left. exists e. by simplify_eq.
  - right. by exists a, w1.
Qed.

(** The step of [predict_labels] that settles the conversion returns the
    conversion in effect and at most warns. *)
Lemma conversion_step lc pinfo w r w' :
  (match pinfo, lc with
   | Some pipeline_info, None =>
       let '(label_conversion, failed) := label_conversion_from_info pipeline_info in
       (if failed then warn no_label_conversion_msg else mret tt);;
       mret label_conversion
   | _, _ => mret lc
   end : M (option (gmap Z pyval))) w = (r, w') →
  r = Return (conversion_in_effect lc pinfo) ∧ ∃ ws, only_warns ws w w'.
Proof.
  unfold conversion_in_effect.
  destruct pinfo as [info|], lc as [m|]; run; simpl;
    try (inversion 1; subst; split; [done|eexists; apply only_warns_refl]).
  destruct (label_conversion_from_info info) as [c [|]]; simpl;
    inversion 1; subst; (split; [done|]).
  - exists [no_label_conversion_msg]. done.
  - eexists; apply only_warns_refl.
Qed.

(** The step of [predict_labels] that substitutes the labels. *)
Lemma labels_step (conversion : option (gmap Z pyval)) (raw : list Z) w r w' :
  (match conversion with
   | Some label_conversion =>
       if decide (Forall (λ label, is_Some (label_conversion !! label)) raw)
       then
         match mapM (λ label, label_conversion !! label) raw with
         | Some converted => mret converted
         | None => raise (KeyError "label")
         end
       else raise (ValueError [Str label_mismatch_msg])
   | None => mret (PInt <$> raw)
   end : M (list pyval)) w = (r, w') →
  w' = w ∧
  r = match final_labels conversion raw with
      | Some labels => Return labels
      | None => Raise (ValueError [Str label_mismatch_msg])
      end.
Proof.
  unfold final_labels. destruct conversion as [m|]; run; [|by inversion 1].
  case_decide as Hall.
  - destruct (mapM _ raw) as [labels|] eqn:Hm; [by inversion 1|].
    apply mapM_None, Exists_exists in Hm as (x & Hx & Hnone).
    rewrite Forall_forall in Hall. destruct (Hall x Hx) as [y Hy]. congruence.
  - destruct (mapM _ raw) as [labels|] eqn:Hm; [|by inversion 1].
    destruct Hall. apply (mapM_is_Some_1 (λ label, m !! label)). by eexists.
Qed.

(** How a run of [predict_labels] ends: assembly fails, or the parameter
    check raises, or the pipeline is called on the sanitized table, after
    which the labels may not match the conversion, and the properties are
    set before the optional export. *)
Lemma predict_labels_inv self lc input export pinfo w r w' :
  predict_labels self lc input export pinfo w = (r, w') →
  (∃ e, input = None ∧ _get_metrics_for_classification self w = (Raise e, w) ∧
        r = Raise e ∧ w' = w)
  ∨ (∃ e d info, acquired self input w d ∧ pinfo = Some info ∧
        _check_params_for_classification self info w = (Raise e, w') ∧ r = Raise e)
  ∨ (∃ d ws w4, acquired self input w d ∧
        (∀ info, pinfo = Some info →
           ∃ w2, _check_params_for_classification self info w = (Return tt, w2)) ∧
        sorting w4 = sorting w ∧ fs w4 = fs w ∧ warnings w4 = warnings w ++ ws ∧
        pipeline_calls w4 =
          pipeline_calls w ++ [(Predict, sanitize d); (PredictProba, sanitize d)] ∧
        match final_labels (conversion_in_effect lc pinfo)
                (predict (pipeline self) (sanitize d)) with
        | None => r = Raise (ValueError [Str label_mismatch_msg]) ∧ w' = w4
        | Some labels =>
            let probs := row_max <$> predict_proba (pipeline self) (sanitize d) in
            let units := classified (index (sanitize d)) labels probs in
            let w5 := set_sorting (with_predictions (sorting w4) labels probs) w4 in
            if export then
              ∃ r0, _export_to_phy self units w5 = (r0, w') ∧
                    r = match r0 with Raise e => Raise e | Return _ => Return units end
            else r = Return units ∧ w' = w5
        end).
Proof.
  unfold predict_labels. intros Hrun.
  apply bind_inv in Hrun as [(e & Hin & ->)|(d & w1 & Hin & Hrun)].
  { left. destruct input as [d|]; [by inversion Hin|].
    pose proof (get_metrics_world _ _ _ _ Hin) as ->. by exists e. }
  assert (acquired self input w d ∧ w1 = w) as [Hacq ->].
  { destruct input as [d0|]; simpl.
    - by inversion Hin.
    - pose proof (get_metrics_world _ _ _ _ Hin) as ->. done. }
  clear Hin. right.
  apply bind_inv in Hrun as [(e & Hchk & ->)|([] & w2 & Hchk & Hrun)].
  { left. destruct pinfo as [info|]; [|by inversion Hchk]. by exists e, d, info. }
  right.
  assert (∃ ws, only_warns ws w w2) as [ws2 Hw2].
  { destruct pinfo as [info|].
    - by eapply check_params_frame.
    - inversion Hchk; subst. eexists; apply only_warns_refl. }
  apply bind_inv in Hrun as [(e & Hconv & ->)|(conv & w3 & Hconv & Hrun)];
    apply conversion_step in Hconv as [Hconv [ws3 Hw3]]; [discriminate Hconv|].
  inversion Hconv; subst conv; clear Hconv.
  pose proof (only_warns_trans _ _ _ _ _ Hw2 Hw3) as (Hs & Hf & Hc & Hw).
  apply bind_inv in Hrun as [(e & Hp & ->)|(raw & w3a & Hp & Hrun)];
    [by inversion Hp|].
  inversion Hp; subst raw w3a; clear Hp.
  apply bind_inv in Hrun as [(e & Hp & ->)|(probs & w4 & Hp & Hrun)];
    [by inversion Hp|].
  inversion Hp; subst probs w4; clear Hp.
  match type of Hrun with _ ?w4 = _ => remember w4 as w4' eqn:Hw4 end.
  assert (sorting w4' = sorting w ∧ fs w4' = fs w ∧
          warnings w4' = warnings w ++ (ws2 ++ ws3) ∧
          pipeline_calls w4' =
            pipeline_calls w ++ [(Predict, sanitize d); (PredictProba, sanitize d)])
    as (? & ? & ? & ?).
  { subst w4'; simpl. by rewrite Hs, Hf, Hc, Hw, <- app_assoc. }
  clear Hw4. exists d, (ws2 ++ ws3), w4'. split; [done|]. split.
  { intros info ->. by exists w2. }
  repeat (split; [done|]).
  apply bind_inv in Hrun as [(e & Hl & ->)|(labels & w5 & Hl & Hrun)];
    apply labels_step in Hl as [-> Hl]; fold (sanitize d) in *;
    destruct (final_labels _ _) as [labels'|]; simplify_eq; [done|].
  apply bind_inv in Hrun as [(e & Hp & ->)|([] & w5 & Hp & Hrun)];
    [by inversion Hp|].
  inversion Hp; subst w5; clear Hp.
  apply bind_inv in Hrun as [(e & Hp & ->)|([] & w6 & Hp & Hrun)];
    [by inversion Hp|].
  inversion Hp; subst w6; clear Hp.
  apply bind_inv in Hrun as [(e & Hx & ->)|([] & w7 & Hx & Hrun)].
  - destruct export; [|by inversion Hx]. exists (Raise e). split; [|done].
    rewrite <- Hx. reflexivity.
  - destruct export.
    + exists (Return tt). inversion Hrun; subst. split; [|done].
      rewrite <- Hx. reflexivity.
    + inversion Hx; subst. inversion Hrun; subst. done.
Qed.

(** *** The export *)

Lemma path_split_join (p n : string) :
  path_split n = (None, n) → path_split (p +:+ String "/" n) = (Some p, n).
Proof.
  intros Hn. induction p as [|a p IH]; simpl.
  - by rewrite Hn.
  - by rewrite IH.
Qed.

(** The file of the export is looked up under its name in the Phy folder,
    or in the root when the folder is the empty string. *)
Lemma phy_file_split (p : string) :
  dirname (p +:+ "/cluster_prediction.tsv") = (if decide (p = "") then "/" else p) ∧
  basename (p +:+ "/cluster_prediction.tsv") = "cluster_prediction.tsv".
Proof.
  unfold dirname, basename.
  rewrite (path_split_join p "cluster_prediction.tsv") by reflexivity. simpl.
  split; [|done]. by destruct p.
Qed.

(** Without a usable Phy folder the export raises and changes nothing. *)
Lemma export_to_phy_refused self units w :
  (annotations (sorting w) !! "phy_folder" = None ∨
   ∃ p, annotations (sorting w) !! "phy_folder" = Some p ∧ p ∉ dirs (fs w)) →
  _export_to_phy self units w = (Raise (ValueError [Str phy_folder_msg]), w).
Proof.
  unfold _export_to_phy. run. simpl.
  intros [->|(p & -> & Hp)]; [done|]. by rewrite bool_decide_eq_false_2.
Qed.

(** C9: the export raises its error and leaves the world, hence the files,
    as they were when the sorting has no "phy_folder" annotation or the
    annotation names no existing directory; otherwise it writes, into that
    directory, the file "cluster_prediction.tsv": tab-separated, its index
    column labelled "cluster_id", with the columns prediction and
    probability, one row per classified unit. *)
Theorem export_to_phy_contract self units w :
  let folder := annotations (sorting w) !! "phy_folder" in
  ((folder = None ∨ ∃ p, folder = Some p ∧ p ∉ dirs (fs w)) →
     _export_to_phy self units w = (Raise (ValueError [Str phy_folder_msg]), w)) ∧
  (∀ p, folder = Some p → p ∈ dirs (fs w) →
     ∃ w' t,
       _export_to_phy self units w = (Return tt, w') ∧
       files (fs w') = <[p +:+ "/cluster_prediction.tsv" := CsvFile t]> (files (fs w)) ∧
       sep t = String (ascii_of_nat 9) EmptyString ∧
       index_label t = "cluster_id" ∧
       header t = ["prediction"; "probability"] ∧
       body t = units ∧
       dirs (fs w') = dirs (fs w) ∧ sorting w' = sorting w ∧
       warnings w' = warnings w ∧ pipeline_calls w' = pipeline_calls w).
Proof.
  simpl. split; [apply export_to_phy_refused|].
  unfold _export_to_phy. run. simpl.
  intros p -> Hp. rewrite bool_decide_eq_true_2 by done.
  eexists _, _. split; [done|]. simpl. done.
Qed.

(** The export touches neither the sorting nor the record of calls. *)
Lemma export_to_phy_frame self units w r w' :
  _export_to_phy self units w = (r, w') →
  sorting w' = sorting w ∧ pipeline_calls w' = pipeline_calls w ∧
  warnings w' = warnings w.
Proof.
  unfold _export_to_phy. run. simpl.
  destruct (annotations (sorting w) !! "phy_folder") as [p|]; [|by inversion 1].
  destruct (bool_decide _); by inversion 1.
Qed.

(** *** The dict of classified units *)

Lemma dict_set_fresh {V : Type} (k : key) (v : V) (d : list (key * V)) :
  k ∉ d.*1 → dict_set k v d = d ++ [(k, v)].
Proof.
  induction d as [|[k' v'] d IHd]; intros Hk; [done|]. simpl.
  rewrite decide_False.
  - f_equal. apply IHd. intros Hin. apply Hk. by right.
  - intros ->. apply Hk. by left.
Qed.

Lemma foldl_dict_set_nodup {V : Type} (items acc : list (key * V)) :
  NoDup (acc.*1 ++ items.*1) →
  foldl (λ (d : list (key * V)) (item : key * V), dict_set item.1 item.2 d)
        acc items = acc ++ items.
Proof.
  revert acc. induction items as [|[k v] items IHi]; intros acc Hnd; simpl.
  - by rewrite app_nil_r.
  - rewrite dict_set_fresh.
    + rewrite IHi, <- app_assoc; [done|].
      rewrite fmap_app. simpl. by rewrite <- app_assoc.
    + apply NoDup_app in Hnd as (_ & Hdis & _). intros Hin.
      apply (Hdis k Hin). by left.
Qed.

Lemma dict_get_lookup {V : Type} (d : list (key * V)) (i : nat) (k : key) (v : V) :
  NoDup d.*1 → d !! i = Some (k, v) → dict_get k d = Some v.
Proof.
  revert i. induction d as [|[k' v'] d IHd]; intros i Hnd Hi; [done|].
  apply NoDup_cons in Hnd as [Hk' Hnd]. simpl. destruct i as [|i]; simpl in Hi.
  - simplify_eq. by rewrite decide_True.
  - rewrite decide_False; [by eapply IHd|].
    intros ->. apply Hk'. apply list_elem_of_fmap.
    exists (k, v). split; [done|]. by eapply list_elem_of_lookup_2.
Qed.

(** With distinct unit identifiers, and a label and a probability for each,
    the dict lists the units in the order of the index. *)
Lemma classified_zip (ids : list key) (labels : list pyval) (probs : list Q) :
  NoDup ids → length labels = length ids → length probs = length ids →
  classified ids labels probs = zip ids (zip labels probs).
Proof.
  intros Hnd Hl Hp. unfold classified.
  rewrite foldl_dict_set_nodup; [done|]. simpl.
  rewrite fst_zip; [done|]. rewrite length_zip. lia.
Qed.

(** *** What a run leaves behind *)

(** A run of [predict_labels] either stops before the pipeline is called,
    with the sorting, the files and the record of calls untouched, or calls
    [predict] and [predict_proba] once each on the sanitized table. *)
Lemma predict_labels_summary self lc input export pinfo w r w' :
  predict_labels self lc input export pinfo w = (r, w') →
  (∃ e, r = Raise e ∧ pipeline_calls w' = pipeline_calls w ∧
        sorting w' = sorting w ∧ fs w' = fs w ∧
        ((input = None ∧ _get_metrics_for_classification self w = (Raise e, w)) ∨
         (∃ info, pinfo = Some info ∧
            _check_params_for_classification self info w = (Raise e, w'))))
  ∨ (∃ d, acquired self input w d ∧
        (∀ info, pinfo = Some info →
           ∃ w2, _check_params_for_classification self info w = (Return tt, w2)) ∧
        pipeline_calls w' =
          pipeline_calls w ++ [(Predict, sanitize d); (PredictProba, sanitize d)] ∧
        match final_labels (conversion_in_effect lc pinfo)
                (predict (pipeline self) (sanitize d)) with
        | None => r = Raise (ValueError [Str label_mismatch_msg]) ∧
                  sorting w' = sorting w ∧ fs w' = fs w
        | Some labels =>
            let probs := row_max <$> predict_proba (pipeline self) (sanitize d) in
            let units := classified (index (sanitize d)) labels probs in
            sorting w' = with_predictions (sorting w) labels probs ∧
            if export then
              ∃ w5 r0, _export_to_phy self units w5 = (r0, w') ∧
                       sorting w5 = sorting w' ∧ fs w5 = fs w ∧
                       r = match r0 with Raise e => Raise e | Return _ => Return units end
            else r = Return units ∧ fs w' = fs w
        end).
Proof.
  intros Hrun.
  apply predict_labels_inv in Hrun
    as [(e & Hin & Hget & -> & ->)
       |[(e & d & info & _ & Hinfo & Hchk & ->)
        |(d & ws & w4 & Hacq & Hchk & Hs & Hf & Hw & Hc & Hrest)]].
  - left. exists e. repeat (split; [done|]). by left.
  - left. exists e.
    pose proof (check_params_frame _ _ _ _ _ Hchk) as (ws & ? & ? & ? & _).
    repeat (split; [done|]). right. by exists info.
  - right. exists d. split; [done|]. split; [done|].
    destruct (final_labels _ _) as [labels|].
    + simpl in Hrest. destruct export.
      * destruct Hrest as (r0 & Hx & ->).
        pose proof (export_to_phy_frame _ _ _ _ _ Hx) as (Hs' & Hc' & _).
        simpl in Hs', Hc'. rewrite Hc', Hc, Hs', Hs. split; [done|].
        split; [done|]. eexists _, r0. split; [exact Hx|]. simpl.
        by rewrite Hs.
      * destruct Hrest as [-> ->]. simpl. by rewrite Hc, Hs, Hf.
    + destruct Hrest as [-> ->]. done.
Qed.

Lemma app_cons_not_nil {A : Type} (l rest : list A) (x : A) : l ≠ l ++ x :: rest.
Proof.
  intros E. apply (f_equal length) in E. rewrite length_app in E. simpl in E. lia.
Qed.

(** C1: when a conversion is in effect, explicit or read from the metadata,
    and the pipeline, called on the table [t], predicts a label that is not
    a key of it, [predict_labels] raises the "label mismatch" error and the
    sorting is as before: neither "label_prediction" nor "label_confidence"
    has been written. *)
Theorem label_mismatch_raises self lc input export pinfo w r w' m t rest :
  predict_labels self lc input export pinfo w = (r, w') →
  conversion_in_effect lc pinfo = Some m →
  pipeline_calls w' = pipeline_calls w ++ (Predict, t) :: rest →
  ¬ Forall (λ label, is_Some (m !! label)) (predict (pipeline self) t) →
  r = Raise (ValueError [Str label_mismatch_msg]) ∧
  sorting w' = sorting w ∧
  properties (sorting w') !! "label_prediction"
    = properties (sorting w) !! "label_prediction" ∧
  properties (sorting w') !! "label_confidence"
    = properties (sorting w) !! "label_confidence".
Proof.
  intros Hrun Hm Hcall Hbad.
  apply predict_labels_summary in Hrun
    as [(e & _ & Hc & _)|(d & _ & _ & Hc & Hrest)].
  { rewrite Hc in Hcall. by apply app_cons_not_nil in Hcall. }
  rewrite Hc in Hcall. apply app_inv_head in Hcall. injection Hcall as <- _.
  rewrite Hm in Hrest. simpl in Hrest.
  destruct (mapM _ _) as [labels|] eqn:Hmap.
  - destruct Hbad. apply (mapM_is_Some_1 (λ label, m !! label)). by eexists.
  - destruct Hrest as (-> & -> & _). done.
Qed.

(** C2, amended: when the table is assembled from the analyzer, from a
    merged metric table with distinct column names, the tables handed to the
    pipeline have exactly the required feature columns, in the pipeline's
    order, and, in a merged table with one value per column, one row per
    row of the merged table that belongs to a current unit, holding under
    each feature the sanitized value the merged table has under the column
    of that name.  A table supplied by the caller is handed over sanitized,
    with the columns and the units it came with, whatever they are. *)
Theorem model_input_columns sa p lc input export pinfo w r w' :
  predict_labels (__init__ sa p) lc input export pinfo w = (r, w') →
  ∃ calls, pipeline_calls w' = pipeline_calls w ++ calls ∧
    ∀ c, c ∈ calls →
      match input with
      | Some d => sanitized_table c.2 d
      | None =>
          ∃ m, merged (__init__ sa p) = Return m ∧
            (NoDup (columns m) →
             columns c.2 = feature_names_in_ p ∧
             (rectangular m →
              Forall2 (λ rt rm : key * list cell,
                         rt.1 = rm.1 ∧
                         Forall2 (λ f ct, ∀ k, columns m !! k = Some f →
                                    ∃ cd, rm.2 !! k = Some cd ∧ sanitized_cell ct cd)
                                 (feature_names_in_ p) rt.2)
                      (rows c.2)
                      (filter (λ r : key * list cell, r.1 ∈ unit_ids (sorting w))
                              (rows m))))
      end.
Proof.
  intros Hrun.
  apply predict_labels_summary in Hrun
    as [(e & _ & Hc & _)|(d & Hacq & _ & Hc & _)].
  { exists []. rewrite app_nil_r. split; [done|]. by intros c ?%elem_of_nil. }
  eexists. split; [exact Hc|]. intros c Hin.
  assert (c.2 = sanitize d) as ->.
  { apply elem_of_cons in Hin as [->|Hin]; [done|].
    by apply list_elem_of_singleton in Hin as ->. }
  pose proof (sanitize_sanitized d) as [Hcols Hrows].
  destruct input as [d0|]; simpl in Hacq.
  - subst d0. by split.
  - destruct (get_metrics_merge_returned _ _ _ _ Hacq) as [m Hm].
    exists m. split; [done|]. intros Hnd. split.
    + rewrite Hcols.
      apply (get_metrics_columns (__init__ sa p) w d w); [|exact Hacq].
      intros m' Hm'. congruence.
    + intros Hrect.
      destruct (get_metrics_cells _ _ _ _ _ Hacq Hm Hnd Hrect) as [_ Hcells].
      simpl in Hcells.
      eapply Forall2_compose; [|exact Hrows|exact Hcells].
      intros rt rd rm [Hu Hs] [Hu' Hpick]. split; [congruence|].
      eapply Forall2_compose_r; [|exact Hpick|exact Hs].
      intros f cd ct Hat Hct k Hk. exists cd. split; [by apply Hat|done].
Qed.

(** *** The parameter check does not block *)

Lemma acquired_unique self input w d d' :
  acquired self input w d → acquired self input w d' → d = d'.
Proof. destruct input; simpl; intros; simplify_eq; congruence. Qed.

(** Once the table is there and the check returns, the pipeline is called. *)
Lemma prediction_proceeds self lc input export info w d w2 :
  acquired self input w d →
  _check_params_for_classification self info w = (Return tt, w2) →
  ∃ r w', predict_labels self lc input export (Some info) w = (r, w') ∧
    pipeline_calls w' =
      pipeline_calls w ++ [(Predict, sanitize d); (PredictProba, sanitize d)].
Proof.
  intros Hacq Hchk.
  destruct (predict_labels self lc input export (Some info) w) as [r w'] eqn:Hrun.
  exists r, w'. split; [done|].
  apply predict_labels_summary in Hrun
    as [(e & _ & _ & _ & _ & [[-> Hget]|(info' & Hinfo & Hchk')])
       |(d' & Hacq' & _ & Hc & _)].
  - simpl in Hacq. congruence.
  - simplify_eq. congruence.
  - by rewrite (acquired_unique _ _ _ _ _ Hacq Hacq').
Qed.

Lemma mismatch_msgs_differ : quality_mismatch_msg ≠ template_mismatch_msg.
Proof. done. Qed.

Lemma bind_return {A B : Type} (m : M A) (f : A → M B) w a w1 :
  m w = (Return a, w1) → (m ≫= f) w = f a w1.
Proof. unfold mbind, M_bind. by intros ->. Qed.

(** The first half of the check, on the quality-metric parameters. *)
Lemma quality_step self info w :
  params_available info (get_extension (sorting_analyzer self) "quality_metrics")
    quality_path "qm_params" →
  ∃ ws w',
    (match get_extension (sorting_analyzer self) "quality_metrics" with
     | Some ext =>
         pipeline_quality_metrics_params ← lift (py_getpath info quality_path);
         quality_metrics_params ← lift (py_getitem (params ext) "qm_params");
         if negb (String.eqb (json_dumps quality_metrics_params)
                             (json_dumps pipeline_quality_metrics_params))
         then warn quality_mismatch_msg
         else mret tt
     | None => mret tt
     end : M unit) w = (Return tt, w') ∧
    only_warns ws w w' ∧
    (quality_mismatch_msg ∈ ws ↔ quality_mismatch self info) ∧
    (∀ msg, msg ∈ ws → msg = quality_mismatch_msg).
Proof.
  unfold quality_mismatch.
  destruct (get_extension _ "quality_metrics") as [ext|]; simpl.
  - intros [[trained Ht] [current Hc]]. run. rewrite Ht, Hc. simpl.
    destruct (String.eqb _ _) eqn:E; simpl.
    + apply String.eqb_eq in E. exists [], w. split; [done|].
      split; [apply only_warns_refl|]. split; [|by intros msg ?%elem_of_nil].
      split; [by intros ?%elem_of_nil|].
      intros (? & ? & ? & ? & ? & ? & Hne). simplify_eq. congruence.
    + apply String.eqb_neq in E. eexists [quality_mismatch_msg], _.
      split; [done|]. split; [done|]. split.
      * split; [|intros _; by left]. intros _. by exists ext, trained, current.
      * by intros msg ?%list_elem_of_singleton.
  - intros _. exists [], w. split; [done|]. split; [apply only_warns_refl|].
    split; [|by intros msg ?%elem_of_nil].
    split; [by intros ?%elem_of_nil|]. by intros (? & ? & ? & ? & _).
Qed.

(** The second half of the check, on the template-metric parameters. *)
Lemma template_step self info w :
  params_available info (get_extension (sorting_analyzer self) "template_metrics")
    template_path "metrics_kwargs" →
  ∃ ws w',
    (match get_extension (sorting_analyzer self) "template_metrics" with
     | Some ext =>
         pipeline_template_metrics_params ← lift (py_getpath info template_path);
         template_metrics_params ← lift (py_getitem (params ext) "metrics_kwargs");
         if negb (py_eq template_metrics_params pipeline_template_metrics_params)
         then warn template_mismatch_msg
         else mret tt
     | None => mret tt
     end : M unit) w = (Return tt, w') ∧
    only_warns ws w w' ∧
    (template_mismatch_msg ∈ ws ↔ template_mismatch self info) ∧
    (∀ msg, msg ∈ ws → msg = template_mismatch_msg).
Proof.
  unfold template_mismatch.
  destruct (get_extension _ "template_metrics") as [ext|]; simpl.
  - intros [[trained Ht] [current Hc]]. run. rewrite Ht, Hc. simpl.
    destruct (py_eq _ _) eqn:E; simpl.
    + exists [], w. split; [done|].
      split; [apply only_warns_refl|]. split; [|by intros msg ?%elem_of_nil].
      split; [by intros ?%elem_of_nil|].
      intros (? & ? & ? & ? & ? & ? & Hne). simplify_eq. congruence.
    + eexists [template_mismatch_msg], _.
      split; [done|]. split; [done|]. split.
      * split; [|intros _; by left]. intros _. by exists ext, trained, current.
      * by intros msg ?%list_elem_of_singleton.
  - intros _. exists [], w. split; [done|]. split; [apply only_warns_refl|].
    split; [|by intros msg ?%elem_of_nil].
    split; [by intros ?%elem_of_nil|]. by intros (? & ? & ? & ? & _).
Qed.

(** C3, amended: when the metadata holds the training parameters of each
    metric family whose extension the analyzer has, and the extension its
    current ones, the check does not raise.  It changes nothing but the
    warnings; it warns about the quality family exactly when its parameters
    differ, about the template family exactly when its parameters differ,
    and about nothing else; and [predict_labels] goes on to call the
    pipeline. *)
Theorem check_params_only_warns self info w :
  params_available info (get_extension (sorting_analyzer self) "quality_metrics")
    quality_path "qm_params" →
  params_available info (get_extension (sorting_analyzer self) "template_metrics")
    template_path "metrics_kwargs" →
  ∃ ws w',
    _check_params_for_classification self info w = (Return tt, w') ∧
    only_warns ws w w' ∧
    (quality_mismatch_msg ∈ ws ↔ quality_mismatch self info) ∧
    (template_mismatch_msg ∈ ws ↔ template_mismatch self info) ∧
    (∀ msg, msg ∈ ws → msg = quality_mismatch_msg ∨ msg = template_mismatch_msg) ∧
    (∀ lc input export d, acquired self input w d →
       ∃ r w'', predict_labels self lc input export (Some info) w = (r, w'') ∧
         pipeline_calls w'' =
           pipeline_calls w ++ [(Predict, sanitize d); (PredictProba, sanitize d)]).
Proof.
  intros Hq Ht.
  destruct (quality_step self info w Hq) as (ws1 & w1 & Hrun1 & Hw1 & Hq1 & Honly1).
  destruct (template_step self info w1 Ht) as (ws2 & w2 & Hrun2 & Hw2 & Ht2 & Honly2).
  assert (_check_params_for_classification self info w = (Return tt, w2)) as Hchk.
  { unfold _check_params_for_classification. cbv zeta.
    erewrite bind_return by exact Hrun1. exact Hrun2. }
  exists (ws1 ++ ws2), w2. split; [done|].
  split; [by eapply only_warns_trans|].
  pose proof mismatch_msgs_differ as Hne.
  split; [|split; [|split]].
  - rewrite elem_of_app, Hq1. split; [|by left].
    intros [?|Hin]; [done|]. apply Honly2 in Hin. congruence.
  - rewrite elem_of_app, Ht2. split; [|by right].
    intros [Hin|?]; [|done]. apply Honly1 in Hin. congruence.
  - intros msg [Hin|Hin]%elem_of_app; [left; by apply Honly1|right; by apply Honly2].
  - intros lc input export d Hacq. by eapply prediction_proceeds.
Qed.

(** *** The result and the properties *)

Lemma with_predictions_labels s labels probs :
  properties (with_predictions s labels probs) !! "label_prediction"
    = Some (Labels labels).
Proof.
  unfold with_predictions; simpl.
  rewrite lookup_insert_ne by done. apply lookup_insert_eq.
Qed.

Lemma with_predictions_confidence s labels probs :
  properties (with_predictions s labels probs) !! "label_confidence"
    = Some (Floats probs).
Proof. unfold with_predictions; simpl. apply lookup_insert_eq. Qed.

(** What a successful run returns and leaves on the sorting. *)
Lemma predict_labels_returns self lc input export pinfo w units w' :
  predict_labels self lc input export pinfo w = (Return units, w') →
  ∃ d labels,
    acquired self input w d ∧
    pipeline_calls w' =
      pipeline_calls w ++ [(Predict, sanitize d); (PredictProba, sanitize d)] ∧
    final_labels (conversion_in_effect lc pinfo)
      (predict (pipeline self) (sanitize d)) = Some labels ∧
    sorting w' = with_predictions (sorting w) labels
                   (row_max <$> predict_proba (pipeline self) (sanitize d)) ∧
    units = classified (index (sanitize d)) labels
              (row_max <$> predict_proba (pipeline self) (sanitize d)).
Proof.
  intros Hrun.
  apply predict_labels_summary in Hrun
    as [(e & ? & _)|(d & Hacq & _ & Hc & Hrest)]; [done|].
  destruct (final_labels _ _) as [labels|] eqn:Hl; [|by destruct Hrest].
  exists d, labels. destruct Hrest as [Hs Hrest].
  repeat (split; [done|]). destruct export.
  - destruct Hrest as (w5 & [e|[]] & _ & _ & _ & Hr); by simplify_eq.
  - destruct Hrest as [Hr _]. by simplify_eq.
Qed.

Lemma final_labels_length conversion raw labels :
  final_labels conversion raw = Some labels → length labels = length raw.
Proof.
  unfold final_labels. destruct conversion as [m|].
  - intros Hm%mapM_Some. symmetry. by eapply Forall2_length.
  - intros [= <-]. by rewrite length_fmap.
Qed.

(** C4: with an explicit conversion, a successful run returns the raw
    predictions substituted through the conversion, label by label and in
    the order predicted, and "label_prediction" holds that very sequence;
    with distinct unit identifiers and one prediction per row, the units of
    the result are those of the index of the input table, in its order. *)
Theorem label_conversion_round_trip self m input export pinfo w units w' :
  predict_labels self (Some m) input export pinfo w = (Return units, w') →
  ∃ d labels,
    acquired self input w d ∧
    Forall2 (λ raw label, m !! raw = Some label)
      (predict (pipeline self) (sanitize d)) labels ∧
    properties (sorting w') !! "label_prediction" = Some (Labels labels) ∧
    (NoDup (index d) →
     length (predict (pipeline self) (sanitize d)) = length (index d) →
     length (predict_proba (pipeline self) (sanitize d)) = length (index d) →
     units.*1 = index d ∧ (units.*2).*1 = labels).
Proof.
  intros Hrun.
  apply predict_labels_returns in Hrun as (d & labels & Hacq & _ & Hl & Hs & ->).
  exists d, labels. split; [done|].
  pose proof (final_labels_length _ _ _ Hl) as Hlen.
  simpl in Hl. apply mapM_Some in Hl. split; [done|].
  split; [rewrite Hs; apply with_predictions_labels|].
  intros Hnd Hraw Hproba.
  rewrite classified_zip; rewrite ?sanitize_index, ?length_fmap; try done; try lia.
  rewrite snd_zip, !fst_zip; rewrite ?length_zip, ?length_fmap; try done; lia.
Qed.

(** C5: a successful run has called [predict] and [predict_proba] once
    each, on one and the same table, which is the input table sanitized:
    the same columns and units, every cell the cast to float32 of the
    cell it was, or of NaN where that cell was infinite.  The labels stored
    are those predicted on that table, through the conversion in effect,
    and, with distinct unit identifiers and one prediction per row, the
    result maps the unit of each row to the label of that row and to the
    maximum of that row of [predict_proba]: a probability of the row that
    none of the row exceeds. *)
Theorem confidence_is_row_maximum self lc input export pinfo w units w' :
  predict_labels self lc input export pinfo w = (Return units, w') →
  ∃ d t labels,
    acquired self input w d ∧
    sanitized_table t d ∧
    pipeline_calls w' = pipeline_calls w ++ [(Predict, t); (PredictProba, t)] ∧
    final_labels (conversion_in_effect lc pinfo) (predict (pipeline self) t)
      = Some labels ∧
    properties (sorting w') !! "label_prediction" = Some (Labels labels) ∧
    (NoDup (index d) →
     length (predict (pipeline self) t) = length (index d) →
     length (predict_proba (pipeline self) t) = length (index d) →
     ∀ i u row,
       index d !! i = Some u →
       predict_proba (pipeline self) t !! i = Some row →
       ∃ label,
         labels !! i = Some label ∧
         dict_get u units = Some (label, row_max row) ∧
         row_max row ∈ classes row ∧
         ∀ x, x ∈ classes row → (x <= row_max row)%Q).
Proof.
  intros Hrun.
  apply predict_labels_returns in Hrun as (d & labels & Hacq & Hc & Hl & Hs & ->).
  exists d, (sanitize d), labels. split; [done|].
  split; [apply sanitize_sanitized|]. repeat (split; [done|]).
  split; [rewrite Hs; apply with_predictions_labels|].
  intros Hnd Hraw Hproba i u row Hu Hrow.
  pose proof (final_labels_length _ _ _ Hl) as Hlen.
  destruct (lookup_lt_is_Some_2 labels i) as [label Hlabel].
  { rewrite Hlen, Hraw. by eapply lookup_lt_Some. }
  exists label. split; [done|].
  destruct (row_max_is_maximum row) as [Hin Hmax]. split; [|done].
  rewrite classified_zip; rewrite ?sanitize_index, ?length_fmap; try done; try lia.
  apply (dict_get_lookup _ i).
  - rewrite fst_zip; [done|]. rewrite length_zip, length_fmap. lia.
  - apply lookup_zip_Some. split; [done|]. apply lookup_zip_Some. split; [done|].
    by rewrite list_lookup_fmap, Hrow.
Qed.

(** C10: with [export_to_phy] true, when the pipeline was called and its
    labels were accepted but the "phy_folder" annotation is missing or
    names no existing directory, [predict_labels] raises the export error
    and the sorting nevertheless holds the new "label_prediction" and
    "label_confidence" arrays. *)
Theorem export_failure_keeps_properties self lc input pinfo w r w' t rest labels :
  predict_labels self lc input true pinfo w = (r, w') →
  pipeline_calls w' = pipeline_calls w ++ (Predict, t) :: rest →
  final_labels (conversion_in_effect lc pinfo) (predict (pipeline self) t)
    = Some labels →
  (annotations (sorting w) !! "phy_folder" = None ∨
   ∃ p, annotations (sorting w) !! "phy_folder" = Some p ∧ p ∉ dirs (fs w)) →
  r = Raise (ValueError [Str phy_folder_msg]) ∧
  properties (sorting w') !! "label_prediction" = Some (Labels labels) ∧
  properties (sorting w') !! "label_confidence"
    = Some (Floats (row_max <$> predict_proba (pipeline self) t)) ∧
  fs w' = fs w.
Proof.
  intros Hrun Hcall Hl Hphy.
  apply predict_labels_summary in Hrun
    as [(e & _ & Hc & _)|(d & _ & _ & Hc & Hrest)].
  { rewrite Hc in Hcall. by apply app_cons_not_nil in Hcall. }
  rewrite Hc in Hcall. apply app_inv_head in Hcall. injection Hcall as <- _.
  rewrite Hl in Hrest. simpl in Hrest.
  destruct Hrest as (Hs & w5 & r0 & Hx & Hs5 & Hf5 & ->).
  rewrite export_to_phy_refused in Hx.
  - simplify_eq. rewrite Hs.
    by rewrite with_predictions_labels, with_predictions_confidence.
  - rewrite Hs5, Hs, Hf5. exact Hphy.
Qed.

(** *** Loading the model *)

(** Without explicit file name, a folder without artifact file is refused. *)
Lemma load_model_no_artifact path w :
  str (Path path) ∈ dirs (fs w) →
  filter (λ name, ends_with ".skops" name = true)
         (default [] (listing (fs w) !! str (Path path))) = [] →
  _load_model_from_folder path None w =
    (Raise (AssertionError
              ("There are no '.skops' files in the folder " +:+ str (Path path))), w).
Proof.
  intros Hdir Hnone. unfold _load_model_from_folder. run.
  rewrite bool_decide_eq_true_2 by done. cbn -[str Path]. by rewrite Hnone.
Qed.

(** With several artifact files, a first one that loads and metadata that
    is absent or parses, the first file listed is loaded, and the warning
    emitted is a fixed text, whatever the folder and the files. *)
Lemma load_model_several path w first second others model :
  str (Path path) ∈ dirs (fs w) →
  filter (λ name, ends_with ".skops" name = true)
         (default [] (listing (fs w) !! str (Path path))) = first :: second :: others →
  files (fs w) !! str (entry (Path path) first) = Some (SkopsFile model) →
  match files (fs w) !! str (truediv (Path path) (Path "model_info.json")) with
  | None | Some (JsonFile _) => True
  | _ => False
  end →
  ∃ info w' ws,
    _load_model_from_folder path None w = (Return (model, info), w') ∧
    warnings w' = warnings w ++ several_skops_msg :: ws ∧
    sorting w' = sorting w ∧ fs w' = fs w.
Proof.
  intros Hdir Hglob Hfile Hinfo. unfold _load_model_from_folder. run.
  rewrite bool_decide_eq_true_2 by done. cbn -[str Path truediv entry].
  rewrite Hglob. cbn -[str Path truediv entry].
  rewrite decide_True by (simpl; lia). cbn -[str Path truediv entry].
  rewrite Hfile. cbn -[str Path truediv entry].
  destruct (files (fs w) !! str (truediv (Path path) (Path "model_info.json")))
    as [[| v | |]|] eqn:E; try done.
  - rewrite bool_decide_eq_true_2 by by eexists. cbn -[str Path truediv entry].
    rewrite E. cbn -[str Path truediv entry]. by eexists _, _, [].
  - rewrite bool_decide_eq_false_2 by by intros [? ?]. cbn -[str Path truediv entry].
    eexists _, _, [_]. split; [done|]. simpl. by rewrite <- app_assoc.
Qed.

(** ** Further properties of the module *)

(** *** The loader *)

Lemma new_warnings_app w w' ws :
  warnings w' = warnings w ++ ws → new_warnings w w' = ws.
Proof. unfold new_warnings. intros ->. by rewrite drop_app_length. Qed.

(** Loading reads the folder and nothing else: whatever its outcome it
    leaves the sorting, the files and the record of calls as they were, and
    adds at most the two warnings it has, each at most once. *)
Theorem load_model_only_warns folder name w r w' :
  _load_model_from_folder folder name w = (r, w') →
  sorting w' = sorting w ∧ fs w' = fs w ∧ pipeline_calls w' = pipeline_calls w ∧
  ∃ ws, warnings w' = warnings w ++ ws ∧
        (ws = [] ∨ ws = [several_skops_msg] ∨ ws = [no_model_info_msg] ∨
         ws = [several_skops_msg; no_model_info_msg]).
Proof.
  unfold _load_model_from_folder. run. intros Hrun.
  repeat (cbn -[str Path truediv entry] in Hrun; case_match); simplify_eq;
    cbn -[str Path truediv entry]; repeat (split; [done|]).
  all: first
    [ exists []; split; [by rewrite app_nil_r|]; tauto
    | exists [several_skops_msg]; split; [done|]; tauto
    | exists [no_model_info_msg]; split; [done|]; tauto
    | exists [several_skops_msg; no_model_info_msg];
      split; [by rewrite <- app_assoc|]; tauto ].
Qed.

(** The loader refuses with an [AssertionError] in exactly three cases, each
    before anything is read or emitted: the folder is no directory; a file
    name is given and there is no file at the folder joined with it; no
    name is given and the folder lists no artifact file.  The folder is
    looked up, and named in the message, as [pathlib] prints it, and the
    file as the join prints it. *)
Theorem load_model_refusals path name w msg w' :
  _load_model_from_folder path name w = (Raise (AssertionError msg), w') ↔
  w' = w ∧
  (((str (Path path) ∉ dirs (fs w)) ∧
    msg = "The folder " +:+ str (Path path) +:+ ", does not exist.") ∨
   (str (Path path) ∈ dirs (fs w) ∧ ∃ n, name = Some n ∧
    files (fs w) !! str (truediv (Path path) (Path n)) = None ∧
    msg = "Model file " +:+ str (truediv (Path path) (Path n)) +:+ " not found.") ∨
   (str (Path path) ∈ dirs (fs w) ∧ name = None ∧
    skops_names (str (Path path)) w = [] ∧
    msg = "There are no '.skops' files in the folder " +:+ str (Path path))).
Proof.
  unfold _load_model_from_folder, skops_names. run. split.
  - intros Hrun.
    destruct (decide (str (Path path) ∈ dirs (fs w))) as [Hdir|Hdir].
    + rewrite bool_decide_eq_true_2 in Hrun by done.
      cbn -[str Path truediv entry] in Hrun.
      destruct name as [n|]; cbn -[str Path truediv entry] in Hrun.
      * destruct (files (fs w) !! str (truediv (Path path) (Path n)))
          as [f|] eqn:Hf.
        -- rewrite bool_decide_eq_true_2 in Hrun by by eexists.
           cbn -[str Path truediv entry] in Hrun. rewrite Hf in Hrun.
           repeat (cbn -[str Path truediv entry] in Hrun; case_match); simplify_eq.
        -- rewrite bool_decide_eq_false_2 in Hrun by by intros [? ?].
           cbn -[str Path truediv entry] in Hrun. simplify_eq.
           split; [done|]. right; left. split; [done|]. by exists n.
      * destruct (filter _ _) as [|first others] eqn:Hglob;
          cbn -[str Path truediv entry] in Hrun.
        -- simplify_eq. split; [done|]. right. by right.
        -- repeat (cbn -[str Path truediv entry] in Hrun; case_match); simplify_eq.
    + rewrite bool_decide_eq_false_2 in Hrun by done.
      cbn -[str Path truediv entry] in Hrun.
      simplify_eq. split; [done|]. by left.
  - intros [-> [[Hdir ->]|[(Hdir & n & -> & Hf & ->)|(Hdir & -> & Hglob & ->)]]].
    + by rewrite bool_decide_eq_false_2.
    + rewrite bool_decide_eq_true_2 by done. cbn -[str Path truediv entry].
      rewrite Hf. by rewrite bool_decide_eq_false_2 by by intros [? ?].
    + rewrite bool_decide_eq_true_2 by done. cbn -[str Path truediv entry].
      by rewrite Hglob.
Qed.

(** The step of the loader that selects the file to load. *)
Lemma select_step path name w file w1 :
  (match name with
   | Some model_name =>
       let skops_file := truediv (Path path) (Path model_name) in
       f ← is_file (str skops_file);
       if (f : bool) then mret skops_file
       else raise (AssertionError ("Model file " +:+ str skops_file +:+ " not found."))
   | None =>
       skops_files ← glob_skops (Path path);
       match skops_files with
       | [] =>
           raise (AssertionError
                    ("There are no '.skops' files in the folder " +:+ str (Path path)))
       | skops_file :: _ =>
           (if decide (1 < length skops_files)%nat
            then warn several_skops_msg else mret tt);;
           mret skops_file
       end
   end : M PosixPath) w = (Return file, w1) →
  match name with
  | Some n => file = truediv (Path path) (Path n)
  | None => ∃ first, head (skops_names (str (Path path)) w) = Some first ∧
                     file = entry (Path path) first
  end ∧
  sorting w1 = sorting w ∧ fs w1 = fs w ∧
  warnings w1 = warnings w ++
    (if decide (name = None ∧ (1 < length (skops_names (str (Path path)) w))%nat)
     then [several_skops_msg] else []).
Proof.
  unfold skops_names. destruct name as [n|]; run.
  - destruct (bool_decide _); cbn -[decide str Path truediv entry];
      intros Hrun; simplify_eq.
    split; [done|]. case_decide as Hc; [by destruct Hc|]. by rewrite app_nil_r.
  - cbn -[decide str Path truediv entry].
    destruct (filter _ _) as [|first others];
      cbn -[decide str Path truediv entry]; [done|].
    rewrite length_fmap.
    destruct (decide (1 < S (length others))%nat) as [Hlen|Hlen];
      cbn -[decide str Path truediv entry]; intros Hrun; simplify_eq;
      (split; [by exists first|]); cbn -[decide str Path truediv entry];
      (split; [done|]); (split; [done|]).
    + by rewrite decide_True.
    + rewrite decide_False by by intros [_ ?]. by rewrite app_nil_r.
Qed.

(** What a successful load has done. *)
Lemma load_model_success path name w model info w' :
  _load_model_from_folder path name w = (Return (model, info), w') →
  str (Path path) ∈ dirs (fs w) ∧
  ∃ file,
    files (fs w) !! str file = Some (SkopsFile model) ∧
    match name with
    | Some n => file = truediv (Path path) (Path n)
    | None => ∃ first, head (skops_names (str (Path path)) w) = Some first ∧
                       file = entry (Path path) first
    end ∧
    warnings w' = warnings w ++
      (if decide (name = None ∧ (1 < length (skops_names (str (Path path)) w))%nat)
       then [several_skops_msg] else []) ++
      (if decide (files (fs w) !! str (truediv (Path path) (Path "model_info.json"))
                    = None)
       then [no_model_info_msg] else []) ∧
    match files (fs w) !! str (truediv (Path path) (Path "model_info.json")) with
    | None => info = None
    | Some f => ∃ v, f = JsonFile v ∧ info = optional v
    end.
Proof.
  unfold _load_model_from_folder. intros Hrun.
  apply bind_inv in Hrun as [(e & _ & ?)|(d & w0 & Hd & Hrun)]; [done|].
  unfold is_dir in Hd. injection Hd as <- <-.
  destruct (decide (str (Path path) ∈ dirs (fs w))) as [Hdir|Hdir];
    [rewrite bool_decide_eq_true_2 in Hrun by done
    |rewrite bool_decide_eq_false_2 in Hrun by done; by unfold raise in Hrun].
  split; [done|]. cbn -[str Path truediv entry] in Hrun.
  apply bind_inv in Hrun as [(e & _ & ?)|(file & w1 & Hsel & Hrun)]; [done|].
  apply select_step in Hsel as (Hname & Hs1 & Hf1 & Hw1).
  apply bind_inv in Hrun as [(e & _ & ?)|(m & w2 & Hload & Hrun)]; [done|].
  unfold skio_load in Hload. rewrite Hf1 in Hload.
  destruct (files (fs w) !! str file) as [[m'| | |]|] eqn:Hfile; try done.
  injection Hload as <- <-.
  apply bind_inv in Hrun as [(e & _ & ?)|(f & w3 & Hisf & Hrun)]; [done|].
  unfold is_file in Hisf. rewrite Hf1 in Hisf. injection Hisf as <- <-.
  exists file.
  destruct (files (fs w) !! str (truediv (Path path) (Path "model_info.json")))
    as [f|] eqn:Hinfo.
  - rewrite bool_decide_eq_true_2 in Hrun by by eexists.
    cbn -[str Path truediv entry] in Hrun.
    apply bind_inv in Hrun as [(e & _ & ?)|(v & w4 & Hjson & Hrun)]; [done|].
    unfold json_load in Hjson. rewrite Hf1, Hinfo in Hjson.
    destruct f; try done. injection Hjson as <- <-.
    unfold mret, M_ret in Hrun. injection Hrun as <- <- <-.
    destruct (decide (Some (JsonFile v0) = None)) as [?|_]; [done|].
    rewrite app_nil_r, Hw1. repeat (split; [done|]). by eexists.
  - rewrite bool_decide_eq_false_2 in Hrun by by intros [? ?].
    cbn -[str Path truediv entry] in Hrun.
    apply bind_inv in Hrun as [(e & _ & ?)|([] & w4 & Hwarn & Hrun)]; [done|].
    unfold warn in Hwarn. injection Hwarn as <-.
    unfold mret, M_ret in Hrun. injection Hrun as <- <- <-.
    simpl. rewrite Hw1.
    destruct (decide (@None File = None)) as [_|?]; [|done].
    repeat (split; [done|]). split; [|done]. by rewrite <- app_assoc.
Qed.

(** A model the loader returns is the content of one file: with a file
    name, the file at the folder joined with the name, which for a name
    that is an absolute path is that path itself, whatever the folder;
    without a name, the first artifact file the folder lists.  The folder
    exists, and the loader warns about several artifact files exactly when
    no name was given and the folder lists more than one. *)
Theorem load_model_returns path name w model info w' :
  _load_model_from_folder path name w = (Return (model, info), w') →
  str (Path path) ∈ dirs (fs w) ∧
  ∃ file,
    files (fs w) !! str file = Some (SkopsFile model) ∧
    match name with
    | Some n =>
        if decide (root (Path n) = "") then
          root file = root (Path path) ∧
          components file = components (Path path) ++ components (Path n)
        else file = Path n
    | None =>
        ∃ first, head (skops_names (str (Path path)) w) = Some first ∧
                 root file = root (Path path) ∧
                 components file = components (Path path) ++ [first]
    end ∧
    (several_skops_msg ∈ new_warnings w w' ↔
     name = None ∧ (1 < length (skops_names (str (Path path)) w))%nat).
Proof.
  intros (Hdir & file & Hfile & Hname & Hws & _)%load_model_success.
  split; [done|]. exists file. split; [done|]. split.
  { destruct name as [n|].
    - subst file. unfold truediv.
      destruct (decide (root (Path n) = "")); [split; reflexivity|reflexivity].
    - destruct Hname as (first & Hfirst & ->). by exists first. }
  rewrite (new_warnings_app _ _ _ Hws).
  destruct (decide (name = None ∧ _)) as [Hsev|Hsev].
  - split; [done|]. intros _. by left.
  - split; [|done]. destruct (decide (_ = None)); simpl.
    + by intros ?%list_elem_of_singleton.
    + by intros ?%elem_of_nil.
Qed.

(** The metadata the loader returns: the warning about missing metadata is
    emitted exactly when there is no file model_info.json in the folder,
    and the metadata is then [None]; otherwise the metadata is the parsed
    content of that file, which is [None] as well when the file holds
    [null]. *)
Theorem load_model_metadata path name w model info w' :
  _load_model_from_folder path name w = (Return (model, info), w') →
  match files (fs w) !! str (truediv (Path path) (Path "model_info.json")) with
  | None => info = None ∧ no_model_info_msg ∈ new_warnings w w'
  | Some f => ∃ v, f = JsonFile v ∧
                   (no_model_info_msg ∉ new_warnings w w') ∧
                   (v = PNone → info = None) ∧
                   (v ≠ PNone → info = Some v)
  end.
Proof.
  intros (_ & file & _ & _ & Hws & Hinfo)%load_model_success.
  rewrite (new_warnings_app _ _ _ Hws).
  destruct (files (fs w) !! str (truediv (Path path) (Path "model_info.json")))
    as [f|].
  - destruct Hinfo as (v & -> & ->). exists v. split; [done|]. split.
    + destruct (decide (Some (JsonFile v) = None)) as [?|_]; [done|].
      rewrite app_nil_r. destruct (decide (name = None ∧ _)).
      * by intros ?%list_elem_of_singleton.
      * by intros ?%elem_of_nil.
    + split; [by intros ->|]. by destruct v.
  - split; [done|]. destruct (decide (@None File = None)) as [_|?]; [|done].
    apply elem_of_app. right. by left.
Qed.

(** *** The entry point *)

(** [auto_label_units] passes the folder under the keyword [folder], which
    is no parameter of [_load_model_from_folder]: whatever its arguments and
    the world, it raises [TypeError] with the world untouched, so that no
    model is loaded, the pipeline is not called and no property is written.
    Under the keyword [model_folder_path] the same call is the load. *)
Theorem auto_label_units_never_loads sa path lc export w :
  auto_label_units sa path lc export w = (Raise TypeError, w) ∧
  ∀ p name,
    call_load_model [("model_folder_path", Some p); ("model_name", name)] w
      = _load_model_from_folder p name w.
Proof. split; [reflexivity|]. intros p name. reflexivity. Qed.

(** *** The parameter check, further *)

Lemma py_getitem_raises v k e :
  py_getitem v k = Raise e → e = TypeError ∨ e = KeyError k.
Proof.
  destruct v; simpl; try (intros [= <-]; by left).
  destruct (dict_lookup k d); [done|]. intros [= <-]. by right.
Qed.

(** With neither metric extension loaded the check looks at nothing: it
    returns without a warning whatever the metadata is, even if it is not
    a dict. *)
Theorem check_params_without_extensions self info w :
  get_extension (sorting_analyzer self) "quality_metrics" = None →
  get_extension (sorting_analyzer self) "template_metrics" = None →
  _check_params_for_classification self info w = (Return tt, w).
Proof.
  intros Hq Ht. unfold _check_params_for_classification.
  rewrite Hq, Ht. reflexivity.
Qed.

Lemma check_params_trace self info w r w' :
  _check_params_for_classification self info w = (r, w') →
  ∃ ws, only_warns ws w w' ∧
    (ws = [] ∨ ws = [quality_mismatch_msg] ∨ ws = [template_mismatch_msg] ∨
     ws = [quality_mismatch_msg; template_mismatch_msg]).
Proof.
  unfold _check_params_for_classification. run. intros Hrun.
  repeat (simpl in Hrun; case_match); simplify_eq.
  all: first
    [ exists []; split; [apply only_warns_refl|]
    | exists [quality_mismatch_msg]; split; [done|]
    | exists [template_mismatch_msg]; split; [done|]
    | exists [quality_mismatch_msg; template_mismatch_msg];
      split; [unfold only_warns; simpl; by rewrite <- app_assoc|] ].
  all: tauto.
Qed.

(** Whatever its outcome, the check changes nothing but the warnings, of
    which it adds at most the quality one and then the template one; it
    raises nothing but the [KeyError] of a key it subscripts with, or a
    [TypeError] for subscripting what is no dict; and once the template
    warning is out, it returns. *)
Theorem check_params_outcomes self info w r w' :
  _check_params_for_classification self info w = (r, w') →
  ∃ ws, only_warns ws w w' ∧
    (ws = [] ∨ ws = [quality_mismatch_msg] ∨ ws = [template_mismatch_msg] ∨
     ws = [quality_mismatch_msg; template_mismatch_msg]) ∧
    (template_mismatch_msg ∈ ws → r = Return tt) ∧
    (∀ e, r = Raise e →
       e = TypeError ∨
       ∃ k, e = KeyError k ∧
            k ∈ quality_path ++ template_path ++ ["qm_params"; "metrics_kwargs"]).
Proof.
  unfold _check_params_for_classification. intros Hrun.
  assert (∀ e k v, py_getitem v k = Raise e →
            k ∈ quality_path ++ template_path ++ ["qm_params"; "metrics_kwargs"] →
            e = TypeError ∨
            ∃ k, e = KeyError k ∧
                 k ∈ quality_path ++ template_path ++ ["qm_params"; "metrics_kwargs"])
    as Hitem.
  { intros e k v [->| ->]%py_getitem_raises Hk; [by left|]. right. by exists k. }
  pose proof mismatch_msgs_differ as Hne.
  revert Hrun. run. intros Hrun.
  repeat (simpl in Hrun; case_match); simplify_eq.
  all: first
    [ exists []; split; [apply only_warns_refl|]
    | exists [quality_mismatch_msg]; split; [done|]
    | exists [template_mismatch_msg]; split; [done|]
    | exists [quality_mismatch_msg; template_mismatch_msg];
      split; [unfold only_warns; simpl; by rewrite <- app_assoc|] ].
  all: split; [tauto|].
  all: split;
    [try done;
     intros Hin; repeat (apply elem_of_cons in Hin as [Hin|Hin]; [done|]);
     by apply elem_of_nil in Hin|].
  all: intros ? [= <-]; (eapply Hitem; [eassumption|]);
    apply (bool_decide_unpack _); by vm_compute.
Qed.


(** *** Metric assembly, further *)

Lemma getitem_columns_returns d names t :
  getitem_columns d names = Return t → index t = index d.
Proof.
  unfold getitem_columns. destruct (list_find _ names) as [[i c]|]; [done|].
  intros [= <-]. unfold index; simpl. rewrite <- list_fmap_compose.
  by apply list_fmap_ext.
Qed.

Lemma getitem_columns_present d names :
  Forall (λ c, c ∈ columns d) names → ∃ t, getitem_columns d names = Return t.
Proof.
  intros Hall. unfold getitem_columns.
  destruct (list_find _ names) as [[i c]|] eqn:Hf; [|by eexists].
  apply list_find_Some in Hf as (Hi & Hc & _).
  rewrite Forall_forall in Hall. destruct Hc. apply Hall.
  by eapply list_elem_of_lookup_2.
Qed.

Lemma loc_isin_index d ids :
  index (loc_isin d ids) = filter (λ u, u ∈ ids) (index d).
Proof.
  unfold index, loc_isin; simpl.
  induction (rows d) as [|r l IHl]; [done|].
  rewrite fmap_cons.
  destruct (decide (r.1 ∈ ids)) as [Hin|Hin].
  - rewrite !filter_cons_True by done. by rewrite fmap_cons, IHl.
  - by rewrite !filter_cons_False by done.
Qed.

Lemma required_subset (required available : list string) :
  (list_to_set required : gset string) ⊆ list_to_set available ↔
  Forall (λ c, c ∈ available) required.
Proof.
  rewrite Forall_forall. split.
  - intros Hsub c Hc. apply (elem_of_list_to_set (C:=gset string)), Hsub.
    by apply elem_of_list_to_set.
  - intros Hall c Hc%elem_of_list_to_set. apply elem_of_list_to_set. by apply Hall.
Qed.

(** Metric assembly fails in three ways only, and never changes the world:
    the merge of the metric tables raises, no row belongs to a current
    unit, or a required column is absent; the selection of the required
    columns itself never raises. *)
Theorem get_metrics_failures self w e w' :
  _get_metrics_for_classification self w = (Raise e, w') →
  w' = w ∧
  (merged self = Raise e ∨
   ∃ m, merged self = Return m ∧
     ((e = ValueError [Str no_units_msg] ∧
       Forall (λ u, u ∉ unit_ids (sorting w)) (index m)) ∨
      (∃ missing c,
         e = ValueError [Str missing_metrics_msg; Missing missing] ∧
         c ∈ missing ∧ c ∈ required_metrics self ∧ c ∉ columns m))).
Proof.
  intros Hrun. pose proof (get_metrics_world _ _ _ _ Hrun) as ->.
  split; [done|]. destruct (merged self) as [e'|m] eqn:Hm.
  - left. unfold merged in Hm. unfold _get_metrics_for_classification in Hrun.
    destruct (try_to_get_metrics_from_analyzer _) as [qm tm]; simpl in Hm.
    run. rewrite Hm in Hrun. simpl in Hrun. congruence.
  - right. exists m. split; [done|].
    rewrite (get_metrics_merged _ _ _ Hm) in Hrun; simpl in Hrun.
    case_decide as Hrows.
    + left. split; [congruence|].
      unfold shape0 in Hrows. apply length_zero_iff_nil in Hrows.
      pose proof (loc_isin_index m (unit_ids (sorting w))) as Hidx.
      unfold index at 1 in Hidx. rewrite Hrows in Hidx. simpl in Hidx.
      apply Forall_forall. intros u Hu Hin.
      assert (u ∈ filter (λ u, u ∈ unit_ids (sorting w)) (index m)) as Hf
        by by apply list_elem_of_filter.
      rewrite <- Hidx in Hf. by apply elem_of_nil in Hf.
    + case_decide as Hsub.
      * apply required_subset in Hsub.
        destruct (getitem_columns_present (loc_isin m (unit_ids (sorting w)))
                    (required_metrics self) Hsub) as [t Ht].
        rewrite Ht in Hrun. congruence.
      * right. injection Hrun as <-.
        rewrite required_subset in Hsub.
        apply not_Forall_Exists, Exists_exists in Hsub as (c & Hc & Hnot); [|apply _].
        eexists _, c. split; [done|]. split; [|done].
        rewrite elem_of_difference, !elem_of_list_to_set. done.
Qed.

Lemma get_metrics_current self w d w' :
  _get_metrics_for_classification self w = (Return d, w') →
  Forall (λ u, u ∈ unit_ids (sorting w)) (index d).
Proof.
  intros Hrun. destruct (merged self) as [e'|m] eqn:Hm.
  - unfold merged in Hm. unfold _get_metrics_for_classification in Hrun.
    destruct (try_to_get_metrics_from_analyzer _) as [qm tm]; simpl in Hm.
    run. rewrite Hm in Hrun. simpl in Hrun. congruence.
  - rewrite (get_metrics_merged _ _ _ Hm) in Hrun; simpl in Hrun.
    repeat case_decide; try congruence.
    injection Hrun as Hrun _. apply getitem_columns_returns in Hrun.
    rewrite loc_isin_index in Hrun. rewrite Hrun.
    apply Forall_forall. by intros u [? _]%list_elem_of_filter.
Qed.

(** The table metric assembly returns has one row per row of the merged
    table that belongs to a current unit of the sorting, in the order of the
    merged table, at least one; every required column is a column of the
    merged table; and the world is as before.  When the merged table has
    distinct column names and one value per column, the columns returned
    are the required ones, in their order, and each row holds under each of
    them the value the merged table has, for that unit, under the column
    of that name. *)
Theorem get_metrics_rows self w d w' :
  _get_metrics_for_classification self w = (Return d, w') →
  w' = w ∧
  ∃ m, merged self = Return m ∧
    index d = filter (λ u, u ∈ unit_ids (sorting w)) (index m) ∧
    index d ≠ [] ∧
    Forall (λ u, u ∈ unit_ids (sorting w)) (index d) ∧
    Forall (λ c, c ∈ columns m) (required_metrics self) ∧
    (NoDup (columns m) → rectangular m →
     columns d = required_metrics self ∧
     Forall2 (λ rd rm : key * list cell,
                rd.1 = rm.1 ∧
                Forall2 (λ c x, ∀ k, columns m !! k = Some c → rm.2 !! k = Some x)
                        (required_metrics self) rd.2)
             (rows d)
             (filter (λ r : key * list cell, r.1 ∈ unit_ids (sorting w)) (rows m))).
Proof.
  intros Hrun. pose proof (get_metrics_world _ _ _ _ Hrun) as ->.
  split; [done|]. destruct (merged self) as [e'|m] eqn:Hm.
  - unfold merged in Hm. unfold _get_metrics_for_classification in Hrun.
    destruct (try_to_get_metrics_from_analyzer _) as [qm tm]; simpl in Hm.
    run. rewrite Hm in Hrun. simpl in Hrun. congruence.
  - exists m. split; [done|].
    pose proof Hrun as Hcells.
    rewrite (get_metrics_merged _ _ _ Hm) in Hrun; simpl in Hrun.
    case_decide as Hrows; [congruence|]. case_decide as Hsub; [|congruence].
    injection Hrun as Hrun. apply getitem_columns_returns in Hrun.
    rewrite loc_isin_index in Hrun. rewrite Hrun.
    split; [done|]. split; [|split; [|split]].
    + intros Hnil. apply Hrows. unfold shape0.
      pose proof (loc_isin_index m (unit_ids (sorting w))) as Hidx.
      rewrite Hnil in Hidx. unfold index in Hidx.
      apply fmap_nil_inv in Hidx. by rewrite Hidx.
    + apply Forall_forall. by intros u [? _]%list_elem_of_filter.
    + by apply required_subset.
    + intros Hnd Hrect. by eapply get_metrics_cells.
Qed.


(** *** The dict of classified units, further *)

Lemma dict_set_keys {V : Type} (k : key) (v : V) (d : list (key * V)) (x : key) :
  x ∈ (dict_set k v d).*1 ↔ x = k ∨ x ∈ d.*1.
Proof.
  induction d as [|[k' v'] d IHd]; simpl.
  - rewrite list_elem_of_singleton, elem_of_nil. tauto.
  - case_decide as E; simpl; rewrite !elem_of_cons.
    + subst k'. tauto.
    + rewrite IHd. tauto.
Qed.

Lemma dict_set_nodup {V : Type} (k : key) (v : V) (d : list (key * V)) :
  NoDup d.*1 → NoDup (dict_set k v d).*1.
Proof.
  induction d as [|[k' v'] d IHd]; simpl; intros Hnd.
  - apply NoDup_singleton.
  - apply NoDup_cons in Hnd as [Hk' Hnd]. case_decide as E; simpl.
    + subst k'. by apply NoDup_cons.
    + apply NoDup_cons. split; [|by apply IHd].
      rewrite dict_set_keys. intros [->|?]; done.
Qed.

Lemma dict_get_set_eq {V : Type} (k : key) (v : V) (d : list (key * V)) :
  dict_get k (dict_set k v d) = Some v.
Proof.
  induction d as [|[k' v'] d IHd]; simpl.
  - by rewrite decide_True.
  - case_decide as E; simpl.
    + by rewrite decide_True.
    + by rewrite decide_False.
Qed.

Lemma dict_get_set_ne {V : Type} (k k' : key) (v : V) (d : list (key * V)) :
  k ≠ k' → dict_get k' (dict_set k v d) = dict_get k' d.
Proof.
  intros Hne. induction d as [|[k0 v0] d IHd]; simpl.
  - by rewrite decide_False.
  - case_decide as E; simpl.
    + subst k0. by rewrite !decide_False.
    + case_decide; [done|]. apply IHd.
Qed.

Lemma foldl_dict_set_keys {V : Type} (items acc : list (key * V)) (x : key) :
  x ∈ (foldl (λ (d : list (key * V)) (item : key * V), dict_set item.1 item.2 d)
         acc items).*1 ↔ x ∈ acc.*1 ∨ x ∈ items.*1.
Proof.
  revert acc. induction items as [|[k v] items IHi]; intros acc; simpl.
  - rewrite elem_of_nil. tauto.
  - rewrite IHi, dict_set_keys, elem_of_cons. tauto.
Qed.

Lemma foldl_dict_set_keys_nodup {V : Type} (items acc : list (key * V)) :
  NoDup acc.*1 →
  NoDup (foldl (λ (d : list (key * V)) (item : key * V), dict_set item.1 item.2 d)
           acc items).*1.
Proof.
  revert acc. induction items as [|[k v] items IHi]; intros acc Hnd; simpl; [done|].
  by apply IHi, dict_set_nodup.
Qed.

Lemma foldl_dict_set_absent {V : Type} (items acc : list (key * V)) (u : key) :
  u ∉ items.*1 →
  dict_get u (foldl (λ (d : list (key * V)) (item : key * V),
                       dict_set item.1 item.2 d) acc items) = dict_get u acc.
Proof.
  revert acc. induction items as [|[k v] items IHi]; intros acc Hu; simpl; [done|].
  rewrite IHi.
  - apply dict_get_set_ne. intros ->. apply Hu. by left.
  - intros Hin. apply Hu. by right.
Qed.

(** The entry of a key is the value of the last item with that key. *)
Lemma foldl_dict_set_last {V : Type} (items acc : list (key * V)) (i : nat)
  (u : key) (v : V) :
  items !! i = Some (u, v) →
  (∀ j, (i < j)%nat → items.*1 !! j ≠ Some u) →
  dict_get u (foldl (λ (d : list (key * V)) (item : key * V),
                       dict_set item.1 item.2 d) acc items) = Some v.
Proof.
  revert acc i. induction items as [|[k x] items IHi]; intros acc i Hi Hlast;
    [done|]. simpl. destruct i as [|i]; simpl in Hi.
  - simplify_eq. rewrite foldl_dict_set_absent; [apply dict_get_set_eq|].
    intros (j & Hj)%list_elem_of_lookup_1. apply (Hlast (S j)); [lia|done].
  - apply (IHi _ i); [done|]. intros j Hj. apply (Hlast (S j)). lia.
Qed.

(** *** Runs of [predict_labels], further *)

(** How the export ends. *)
Lemma export_to_phy_inv self units w r w' :
  _export_to_phy self units w = (r, w') →
  (r = Raise (ValueError [Str phy_folder_msg]) ∧ w' = w) ∨
  (∃ p, annotations (sorting w) !! "phy_folder" = Some p ∧ p ∈ dirs (fs w) ∧
        r = Return tt ∧ sorting w' = sorting w ∧
        dirs (fs w') = dirs (fs w) ∧
        listing (fs w') =
          (let folder := if decide (p = "") then "/" else p in
           let entries := default [] (listing (fs w) !! folder) in
           if decide ("cluster_prediction.tsv" ∈ entries) then listing (fs w)
           else <[folder := entries ++ ["cluster_prediction.tsv"]]> (listing (fs w))) ∧
        files (fs w') =
          <[p +:+ "/cluster_prediction.tsv" :=
              CsvFile {| sep := String (ascii_of_nat 9) EmptyString;
                         index_label := "cluster_id";
                         header := ["prediction"; "probability"];
                         body := units |}]> (files (fs w))).
Proof.
  unfold _export_to_phy. run. cbn -[dirname basename decide].
  destruct (annotations (sorting w) !! "phy_folder") as [p|];
    [|intros [= <- <-]; by left].
  destruct (decide (p ∈ dirs (fs w))) as [Hp|Hp].
  - rewrite bool_decide_eq_true_2 by done. intros [= <- <-].
    right. exists p. destruct (phy_file_split p) as [Hd Hb].
    cbn -[dirname basename decide]. rewrite Hd, Hb. done.
  - rewrite bool_decide_eq_false_2 by done. intros [= <- <-]. by left.
Qed.

(** A run leaves the units and the annotations of the sorting alone, and
    every property but "label_prediction" and "label_confidence"; these
    two it sets together, to sequences of labels and of confidences, or
    not at all. *)
Theorem predict_labels_sorting_frame self lc input export pinfo w r w' :
  predict_labels self lc input export pinfo w = (r, w') →
  unit_ids (sorting w') = unit_ids (sorting w) ∧
  annotations (sorting w') = annotations (sorting w) ∧
  (∀ name, name ≠ "label_prediction" → name ≠ "label_confidence" →
     properties (sorting w') !! name = properties (sorting w) !! name) ∧
  (sorting w' = sorting w ∨
   ∃ labels probs,
     properties (sorting w') !! "label_prediction" = Some (Labels labels) ∧
     properties (sorting w') !! "label_confidence" = Some (Floats probs)).
Proof.
  intros Hrun.
  assert (sorting w' = sorting w ∨
          ∃ labels probs, sorting w' = with_predictions (sorting w) labels probs)
    as [Hs|(labels & probs & Hs)].
  { apply predict_labels_summary in Hrun
      as [(e & _ & _ & Hs & _)|(d & _ & _ & _ & Hrest)]; [by left|].
    destruct (final_labels _ _) as [labels|].
    - right. destruct Hrest as [Hs _]. by eexists _, _.
    - left. by destruct Hrest as (_ & Hs & _). }
  - rewrite Hs. repeat (split; [done|]). by left.
  - rewrite Hs. split; [done|]. split; [done|]. split.
    + intros name Hp Hc. unfold with_predictions; simpl.
      by rewrite !lookup_insert_ne.
    + right. exists labels, probs.
      by rewrite with_predictions_labels, with_predictions_confidence.
Qed.

(** A run never changes the set of directories and never takes an entry
    off a listing; without export, and whenever it raises, it leaves the
    file system as it was; the only entry it can add to a listing is
    "cluster_prediction.tsv" in the Phy folder (the root, should the
    annotation be the empty string), and a run that returns with the
    export on does list it there. *)
Theorem predict_labels_files_frame self lc input export pinfo w r w' :
  predict_labels self lc input export pinfo w = (r, w') →
  dirs (fs w') = dirs (fs w) ∧
  (export = false → fs w' = fs w) ∧
  (∀ e, r = Raise e → fs w' = fs w) ∧
  (∀ folder name,
     name ∈ default [] (listing (fs w) !! folder) →
     name ∈ default [] (listing (fs w') !! folder)) ∧
  (∀ folder name,
     name ∈ default [] (listing (fs w') !! folder) →
     name ∈ default [] (listing (fs w) !! folder) ∨
     (name = "cluster_prediction.tsv" ∧ export = true ∧
      ∃ p, annotations (sorting w) !! "phy_folder" = Some p ∧
           folder = if decide (p = "") then "/" else p)) ∧
  (∀ units, r = Return units → export = true →
     ∃ p, annotations (sorting w) !! "phy_folder" = Some p ∧
          "cluster_prediction.tsv" ∈
            default [] (listing (fs w') !! (if decide (p = "") then "/" else p))).
Proof.
  intros Hrun.
  assert (fs w' = fs w ∨
          ∃ units p, r = Return units ∧ export = true ∧
            annotations (sorting w) !! "phy_folder" = Some p ∧
            dirs (fs w') = dirs (fs w) ∧
            listing (fs w') =
              (let folder := if decide (p = "") then "/" else p in
               let entries := default [] (listing (fs w) !! folder) in
               if decide ("cluster_prediction.tsv" ∈ entries) then listing (fs w)
               else <[folder := entries ++ ["cluster_prediction.tsv"]]>
                      (listing (fs w)))) as [Hfs|Hexp].
  { apply predict_labels_summary in Hrun
      as [(e & -> & _ & _ & Hf & _)|(d & _ & _ & _ & Hrest)]; [by left|].
    destruct (final_labels _ _) as [labels|]; [|left; by destruct Hrest as (_ & _ & ?)].
    destruct Hrest as [Hs Hrest]. destruct export; [|left; by destruct Hrest].
    destruct Hrest as (w5 & r0 & Hx & Hs5 & Hf5 & ->).
    apply export_to_phy_inv in Hx
      as [[-> ->]|(p & Hp & _ & -> & _ & Hd & Hl & _)]; [by left|].
    right. eexists _, p. split; [done|]. split; [done|].
    rewrite Hs5, Hs in Hp. rewrite Hf5 in Hd, Hl. done. }
  { rewrite Hfs. repeat (split; [done|]). split; [by left|].
    intros units -> ->.
    apply predict_labels_summary in Hrun
      as [(e & ? & _)|(d & _ & _ & _ & Hrest)]; [done|].
    destruct (final_labels _ _) as [labels|]; [|by destruct Hrest].
    destruct Hrest as (Hs & w5 & r0 & Hx & Hs5 & Hf5 & Hr).
    apply export_to_phy_inv in Hx
      as [[-> ->]|(p & Hp & _ & -> & _ & _ & Hl & _)]; [done|].
    exists p. rewrite Hs5, Hs in Hp. split; [done|]. rewrite Hf5 in Hl.
    rewrite Hfs in Hl. simpl in Hl. case_decide as Hin; [done|].
    apply (f_equal (λ l, l !! (if decide (p = "") then "/" else p))) in Hl.
    rewrite lookup_insert_eq in Hl. destruct Hin.
    destruct (listing (fs w) !! _) as [l|]; [|done].
    injection Hl as Hl. apply (f_equal length) in Hl.
    rewrite length_app in Hl. simpl in Hl. lia. }
  destruct Hexp as (units & p & -> & -> & Hp & Hd & Hl). simpl in Hl.
  split; [done|]. split; [done|]. split; [done|].
  set (folder := if decide (p = "") then "/" else p) in *.
  split; [|split].
  - intros f name Hin. rewrite Hl. case_decide; [done|].
    destruct (decide (f = folder)) as [->|Hne].
    + rewrite lookup_insert_eq. simpl. apply elem_of_app. by left.
    + by rewrite lookup_insert_ne.
  - intros f name Hin. rewrite Hl in Hin. case_decide; [by left|].
    destruct (decide (f = folder)) as [->|Hne].
    + rewrite lookup_insert_eq in Hin. simpl in Hin.
      apply elem_of_app in Hin as [?|Hin]; [by left|].
      apply list_elem_of_singleton in Hin as ->. right.
      split; [done|]. split; [done|]. by exists p.
    + rewrite lookup_insert_ne in Hin by done. by left.
  - intros units' _ _. exists p. split; [done|]. rewrite Hl.
    case_decide as Hin; [done|]. rewrite lookup_insert_eq. simpl.
    apply elem_of_app. right. by left.
Qed.

(** A run that returns with the export on has written the returned mapping
    itself as the body of "cluster_prediction.tsv" in the Phy folder of
    the sorting, and no other file. *)
Theorem predict_labels_exports_result self lc input pinfo w units w' :
  predict_labels self lc input true pinfo w = (Return units, w') →
  ∃ p, annotations (sorting w) !! "phy_folder" = Some p ∧ p ∈ dirs (fs w) ∧
    files (fs w') !! (p +:+ "/cluster_prediction.tsv")
      = Some (CsvFile {| sep := String (ascii_of_nat 9) EmptyString;
                         index_label := "cluster_id";
                         header := ["prediction"; "probability"];
                         body := units |}) ∧
    ∀ path, path ≠ p +:+ "/cluster_prediction.tsv" →
      files (fs w') !! path = files (fs w) !! path.
Proof.
  intros Hrun.
  apply predict_labels_summary in Hrun
    as [(e & ? & _)|(d & _ & _ & _ & Hrest)]; [done|].
  destruct (final_labels _ _) as [labels|]; [|by destruct Hrest].
  destruct Hrest as (Hs & w5 & r0 & Hx & Hs5 & Hf5 & Hr).
  apply export_to_phy_inv in Hx
    as [[-> ->]|(p & Hp & Hdir & -> & _ & _ & _ & Hfiles)]; [done|].
  injection Hr as ->. exists p.
  rewrite Hs5, Hs in Hp. rewrite Hf5 in Hdir, Hfiles.
  split; [done|]. split; [done|]. rewrite Hfiles. split.
  - apply lookup_insert_eq.
  - intros path Hne. by rewrite lookup_insert_ne.
Qed.

Lemma zip_fst_lookup {A B : Type} (l : list A) (k : list B) (j : nat) (x : A) :
  (zip l k).*1 !! j = Some x → l !! j = Some x.
Proof.
  rewrite list_lookup_fmap. destruct (zip l k !! j) as [[a b]|] eqn:Hz; [|done].
  apply lookup_zip_Some in Hz as [Ha _]. simpl. by intros [= <-].
Qed.

Lemma classified_keys ids labels probs :
  NoDup (classified ids labels probs).*1 ∧
  (∀ u, u ∈ (classified ids labels probs).*1 → u ∈ ids) ∧
  (length labels = length ids → length probs = length ids →
   ∀ u, u ∈ ids → u ∈ (classified ids labels probs).*1).
Proof.
  unfold classified. split; [|split].
  - apply foldl_dict_set_keys_nodup. constructor.
  - intros u [Hu|Hu]%foldl_dict_set_keys; [by apply elem_of_nil in Hu|].
    apply list_elem_of_lookup_1 in Hu as [j Hj].
    apply zip_fst_lookup in Hj. by eapply list_elem_of_lookup_2.
  - intros Hl Hp u Hu. apply foldl_dict_set_keys. right.
    rewrite fst_zip; [done|]. rewrite length_zip. lia.
Qed.

(** The mapping a run returns has each unit once, and only units of the
    index of the table the run started from; with a prediction and a row
    of probabilities for every row of the table, it has all of them. *)
Theorem result_keys self lc input export pinfo w units w' :
  predict_labels self lc input export pinfo w = (Return units, w') →
  ∃ d, acquired self input w d ∧
    NoDup units.*1 ∧
    (∀ u, u ∈ units.*1 → u ∈ index d) ∧
    (length (predict (pipeline self) (sanitize d)) = length (index d) →
     length (predict_proba (pipeline self) (sanitize d)) = length (index d) →
     ∀ u, u ∈ index d → u ∈ units.*1).
Proof.
  intros Hrun.
  apply predict_labels_returns in Hrun as (d & labels & Hacq & _ & Hl & _ & ->).
  exists d. split; [done|].
  pose proof (final_labels_length _ _ _ Hl) as Hlen.
  destruct (classified_keys (index (sanitize d)) labels
              (row_max <$> predict_proba (pipeline self) (sanitize d)))
    as (Hnd & Hsub & Hall).
  split; [done|]. split.
  - intros u Hu. rewrite <- (sanitize_index d). by apply Hsub.
  - intros Hraw Hproba u Hu.
    apply Hall; rewrite ?sanitize_index, ?length_fmap; [lia|done|done].
Qed.

(** When a unit identifier heads several rows of the table, the returned
    mapping holds the label and the confidence of the last of these rows,
    while "label_prediction" keeps the labels of all rows. *)
Theorem result_last_row_wins self lc input export pinfo w units w' :
  predict_labels self lc input export pinfo w = (Return units, w') →
  ∃ d labels,
    acquired self input w d ∧
    properties (sorting w') !! "label_prediction" = Some (Labels labels) ∧
    ∀ i u label row,
      index d !! i = Some u →
      (∀ j, (i < j)%nat → index d !! j ≠ Some u) →
      labels !! i = Some label →
      predict_proba (pipeline self) (sanitize d) !! i = Some row →
      dict_get u units = Some (label, row_max row).
Proof.
  intros Hrun.
  apply predict_labels_returns in Hrun as (d & labels & Hacq & _ & _ & Hs & ->).
  exists d, labels. split; [done|].
  split; [rewrite Hs; apply with_predictions_labels|].
  intros i u label row Hu Hlast Hlabel Hrow. unfold classified.
  rewrite sanitize_index. apply (foldl_dict_set_last _ _ i).
  - apply lookup_zip_Some. split; [done|]. apply lookup_zip_Some.
    split; [done|]. by rewrite list_lookup_fmap, Hrow.
  - intros j Hj Hz%zip_fst_lookup. by apply (Hlast j).
Qed.

(** On the analyzer path, every unit of the returned mapping is a current
    unit of the sorting. *)
Theorem result_units_are_current self lc export pinfo w units w' :
  predict_labels self lc None export pinfo w = (Return units, w') →
  Forall (λ u, u ∈ unit_ids (sorting w)) units.*1 ∧
  unit_ids (sorting w') = unit_ids (sorting w).
Proof.
  intros Hrun.
  pose proof (predict_labels_returns _ _ _ _ _ _ _ _ Hrun)
    as (d & labels & Hacq & _ & _ & Hs & ->).
  simpl in Hacq. apply get_metrics_current in Hacq as Hcur.
  split; [|by rewrite Hs].
  apply Forall_forall. intros u Hu.
  destruct (classified_keys (index (sanitize d)) labels
              (row_max <$> predict_proba (pipeline self) (sanitize d)))
    as (_ & Hsub & _).
  apply Hsub in Hu. rewrite sanitize_index in Hu.
  rewrite Forall_forall in Hcur. by apply Hcur.
Qed.

(** Every table handed to the pipeline is the table the run started from,
    with the same units and columns in the same order, each cell cast to
    float32 from the cell it was, or from NaN where that cell was
    infinite: no infinite value is ever cast. *)
Theorem model_table_is_sanitized self lc input export pinfo w r w' call :
  predict_labels self lc input export pinfo w = (r, w') →
  call ∈ drop (length (pipeline_calls w)) (pipeline_calls w') →
  ∃ d, acquired self input w d ∧
    index call.2 = index d ∧ columns call.2 = columns d ∧
    Forall2 (λ rt rd : key * list cell,
               rt.1 = rd.1 ∧
               Forall2 (λ ct cd, ∃ x, ct = astype_float32 x ∧ np_isinf x = false ∧
                                      x = if np_isinf cd then NaN else cd)
                       rt.2 rd.2)
            (rows call.2) (rows d).
Proof.
  intros Hrun Hcall.
  apply predict_labels_summary in Hrun
    as [(e & _ & Hc & _)|(d & Hacq & _ & Hc & _)].
  { rewrite Hc, drop_all in Hcall. by apply elem_of_nil in Hcall. }
  rewrite Hc, drop_app_length in Hcall. exists d. split; [done|].
  assert (call.2 = sanitize d) as ->.
  { apply elem_of_cons in Hcall as [->|Hcall]; [done|].
    by apply list_elem_of_singleton in Hcall as ->. }
  split; [apply sanitize_index|]. split; [done|].
  unfold sanitize, df_map; simpl. rewrite <- list_fmap_compose.
  apply Forall2_fmap_l, Forall_Forall2_diag, Forall_forall.
  intros [u cells] _. simpl. split; [done|].
  rewrite <- list_fmap_compose.
  apply Forall2_fmap_l, Forall_Forall2_diag, Forall_forall.
  intros c _. simpl. eexists. split; [done|]. split; [|done].
  by destruct c.
Qed.

(** *** The stored conversion *)

Lemma int_keys_all items acc :
  Forall (λ kv : string * pyval, is_Some (py_int kv.1)) items →
  ∃ m, int_keys items acc = (m, false) ∧
    (∀ z, is_Some (m !! z) ↔
          is_Some (acc !! z) ∨ ∃ kv, kv ∈ items ∧ py_int kv.1 = Some z) ∧
    (∀ i k v z, items !! i = Some (k, v) → py_int k = Some z →
       (∀ j kv, (i < j)%nat → items !! j = Some kv → py_int kv.1 ≠ Some z) →
       m !! z = Some v).
Proof.
  revert acc. induction items as [|[k v] items IHi]; intros acc Hall; simpl.
  - exists acc. split; [done|]. split; [|done].
    intros z. split; [by left|]. intros [?|(kv & Hin & _)]; [done|].
    by apply elem_of_nil in Hin.
  - apply Forall_cons in Hall as [[z0 Hk] Hall]. simpl in Hk. rewrite Hk.
    destruct (IHi (<[z0 := v]> acc) Hall) as (m & Hm & Hdom & Hlast).
    exists m. split; [done|]. split.
    + intros z. rewrite Hdom. split.
      * intros [Hz|(kv & Hin & Hkv)].
        -- destruct (decide (z0 = z)) as [->|Hne].
           ++ right. exists (k, v). split; [by left|done].
           ++ left. by rewrite lookup_insert_ne in Hz.
        -- right. exists kv. split; [by right|done].
      * intros [Hz|(kv & Hin & Hkv)].
        -- left. destruct (decide (z0 = z)) as [->|Hne].
           ++ rewrite lookup_insert_eq. by eexists.
           ++ by rewrite lookup_insert_ne.
        -- apply elem_of_cons in Hin as [->|Hin].
           ++ left. simpl in Hkv. rewrite Hk in Hkv. injection Hkv as ->.
              rewrite lookup_insert_eq. by eexists.
           ++ right. by exists kv.
    + intros i k' v' z Hi Hz Hafter. destruct i as [|i]; simpl in Hi.
      * injection Hi as -> ->. rewrite Hk in Hz. injection Hz as ->.
        clear Hdom Hlast.
        assert (∀ items acc m, int_keys items acc = (m, false) →
                  (∀ kv, kv ∈ items → py_int kv.1 ≠ Some z) →
                  m !! z = acc !! z) as Hkeep.
        { clear. intros items. induction items as [|[k v] items IHi];
            intros acc m; simpl.
          - by intros [= ->].
          - destruct (py_int k) as [z'|] eqn:Hk; [|done]. intros Hm Hno.
            rewrite (IHi _ _ Hm).
            + apply lookup_insert_ne. intros ->. apply (Hno (k, v)); [by left|done].
            + intros kv Hin. apply Hno. by right. }
        rewrite (Hkeep _ _ _ Hm); [apply lookup_insert_eq|].
        intros kv [j Hj]%list_elem_of_lookup_1.
        apply (Hafter (S j) kv); [lia|done].
      * apply (Hlast i k' v' z Hi Hz). intros j kv Hj Hkv.
        apply (Hafter (S j) kv); [lia|done].
Qed.

Lemma int_keys_bad pre k v post acc :
  Forall (λ kv : string * pyval, is_Some (py_int kv.1)) pre →
  py_int k = None →
  int_keys (pre ++ (k, v) :: post) acc = ((int_keys pre acc).1, true).
Proof.
  revert acc. induction pre as [|[k' v'] pre IHp]; intros acc Hall Hk; simpl.
  - by rewrite Hk.
  - apply Forall_cons in Hall as [[z Hz] Hall]. simpl in Hz. rewrite Hz.
    by apply IHp.
Qed.

(** When the metadata stores a conversion whose keys all read as integers,
    the conversion read from it has exactly these integers as keys, each
    with the value of the last item whose key reads as it, and the
    [except] branch is not taken. *)
Theorem stored_conversion_reads_keys info items :
  py_getitem info "label_conversion" = Return (PDict items) →
  Forall (λ kv : string * pyval, is_Some (py_int kv.1)) items →
  ∃ m, label_conversion_from_info info = (Some m, false) ∧
    (∀ z, is_Some (m !! z) ↔ ∃ kv, kv ∈ items ∧ py_int kv.1 = Some z) ∧
    (∀ i k v z, items !! i = Some (k, v) → py_int k = Some z →
       (∀ j kv, (i < j)%nat → items !! j = Some kv → py_int kv.1 ≠ Some z) →
       m !! z = Some v).
Proof.
  intros Hget Hall. unfold label_conversion_from_info. rewrite Hget. simpl.
  destruct (int_keys_all items ∅ Hall) as (m & -> & Hdom & Hlast).
  exists m. split; [done|]. split; [|done].
  intros z. rewrite Hdom. split; [|by right].
  intros [[x Hx]|?]; [|done]. by rewrite lookup_empty in Hx.
Qed.

(** When a key of the stored conversion does not read as an integer, the
    conversion in effect is the one the items before that key give on
    their own, the items after it are not looked at, and the [except]
    branch is taken. *)
Theorem stored_conversion_stops_at_bad_key info pre k v post :
  py_getitem info "label_conversion" = Return (PDict (pre ++ (k, v) :: post)) →
  Forall (λ kv : string * pyval, is_Some (py_int kv.1)) pre →
  py_int k = None →
  ∃ m, label_conversion_from_info info = (Some m, true) ∧
    ∀ info', py_getitem info' "label_conversion" = Return (PDict pre) →
             label_conversion_from_info info' = (Some m, false).
Proof.
  intros Hget Hall Hk. unfold label_conversion_from_info. rewrite Hget. simpl.
  rewrite (int_keys_bad _ _ _ _ _ Hall Hk).
  destruct (int_keys_all pre ∅ Hall) as (m & Hm & _).
  exists m. rewrite Hm. split; [done|].
  intros info' ->. simpl. by rewrite Hm.
Qed.

(** *** The warnings of a run *)

Lemma conversion_step_warnings lc pinfo w r w' :
  (match pinfo, lc with
   | Some pipeline_info, None =>
       let '(label_conversion, failed) := label_conversion_from_info pipeline_info in
       (if failed then warn no_label_conversion_msg else mret tt);;
       mret label_conversion
   | _, _ => mret lc
   end : M (option (gmap Z pyval))) w = (r, w') →
  only_warns (conversion_warnings lc pinfo) w w'.
Proof.
  unfold conversion_warnings.
  destruct pinfo as [info|], lc as [m|]; run; simpl;
    try (intros [= <- <-]; apply only_warns_refl).
  destruct (label_conversion_from_info info) as [c [|]]; simpl;
    intros [= <- <-]; [done|apply only_warns_refl].
Qed.

Lemma conversion_msg_differs :
  no_label_conversion_msg ≠ quality_mismatch_msg ∧
  no_label_conversion_msg ≠ template_mismatch_msg.
Proof. done. Qed.

(** The warnings of a run: those of the parameter check, then, once the
    conversion is settled, its warning. *)
Lemma predict_labels_trace self lc input export pinfo w r w' :
  predict_labels self lc input export pinfo w = (r, w') →
  ∃ ws,
    (∀ msg, msg ∈ ws → msg = quality_mismatch_msg ∨ msg = template_mismatch_msg) ∧
    (pinfo = None → ws = []) ∧
    ((warnings w' = warnings w ++ ws ∧ pipeline_calls w' = pipeline_calls w) ∨
     (warnings w' = warnings w ++ ws ++ conversion_warnings lc pinfo ∧
      pipeline_calls w' ≠ pipeline_calls w)).
Proof.
  unfold predict_labels. intros Hrun.
  apply bind_inv in Hrun as [(e & Hin & ->)|(d & w1 & Hin & Hrun)].
  { exists []. split; [by intros msg ?%elem_of_nil|]. split; [done|]. left.
    destruct input as [d|]; [by inversion Hin|].
    pose proof (get_metrics_world _ _ _ _ Hin) as ->. by rewrite app_nil_r. }
  assert (w1 = w) as ->.
  { destruct input as [d0|]; [by inversion Hin|].
    by pose proof (get_metrics_world _ _ _ _ Hin) as ->. }
  clear Hin.
  assert (∀ r2 w2,
            match pinfo with
            | Some pipeline_info => _check_params_for_classification self pipeline_info
            | None => mret ()
            end w = (r2, w2) →
            ∃ ws, only_warns ws w w2 ∧
              (∀ msg, msg ∈ ws →
                 msg = quality_mismatch_msg ∨ msg = template_mismatch_msg) ∧
              (pinfo = None → ws = [])) as Hcheck.
  { intros r2 w2 Hchk. destruct pinfo as [info|].
    - apply check_params_trace in Hchk as (ws & Hw & Hcases).
      exists ws. split; [done|]. split; [|done]. intros msg Hmsg.
      destruct Hcases as [->|[->|[->| ->]]];
        repeat (apply elem_of_cons in Hmsg as [->|Hmsg]; [tauto|]);
        by apply elem_of_nil in Hmsg.
    - injection Hchk as <- <-. exists []. split; [apply only_warns_refl|].
      split; [|done]. by intros msg ?%elem_of_nil. }
  apply bind_inv in Hrun as [(e & Hchk & ->)|([] & w2 & Hchk & Hrun)];
    apply Hcheck in Hchk as (ws & (Hs2 & Hf2 & Hc2 & Hw2) & Hmsgs & Hnone);
    exists ws; (split; [done|]); (split; [done|]); [by left|]. right.
  apply bind_inv in Hrun as [(e & Hconv & ->)|(conv & w3 & Hconv & Hrun)];
    pose proof (conversion_step_warnings _ _ _ _ _ Hconv) as (Hs3 & Hf3 & Hc3 & Hw3);
    apply conversion_step in Hconv as [Hconv _]; [discriminate Hconv|].
  apply bind_inv in Hrun as [(e & Hp & ->)|(raw & w3a & Hp & Hrun)];
    [by inversion Hp|].
  inversion Hp; subst raw w3a; clear Hp.
  apply bind_inv in Hrun as [(e & Hp & ->)|(probs & w4 & Hp & Hrun)];
    [by inversion Hp|].
  inversion Hp; subst probs w4; clear Hp.
  match type of Hrun with _ ?w4 = _ => remember w4 as w4' eqn:Hw4 end.
  assert (warnings w4' = warnings w ++ ws ++ conversion_warnings lc pinfo ∧
          pipeline_calls w4' ≠ pipeline_calls w) as [Hw4' Hc4'].
  { subst w4'; simpl. rewrite Hw3, Hw2, Hc3, Hc2, <- !app_assoc. split; [done|].
    simpl. apply not_eq_sym, app_cons_not_nil. }
  clear Hw4.
  apply bind_inv in Hrun as [(e & Hl & ->)|(labels & w5 & Hl & Hrun)];
    apply labels_step in Hl as [-> Hl]; [done|].
  apply bind_inv in Hrun as [(e & Hp & ->)|([] & w5 & Hp & Hrun)];
    [by inversion Hp|].
  inversion Hp; subst w5; clear Hp.
  apply bind_inv in Hrun as [(e & Hp & ->)|([] & w6 & Hp & Hrun)];
    [by inversion Hp|].
  inversion Hp; subst w6; clear Hp.
  apply bind_inv in Hrun as [(e & Hx & ->)|([] & w7 & Hx & Hrun)].
  - destruct export; [|by inversion Hx].
    apply export_to_phy_frame in Hx as (_ & Hcx & Hwx). simpl in Hcx, Hwx.
    by rewrite Hcx, Hwx.
  - injection Hrun as <- <-. destruct export.
    + apply export_to_phy_frame in Hx as (_ & Hcx & Hwx). simpl in Hcx, Hwx.
      by rewrite Hcx, Hwx.
    + by injection Hx as <-.
Qed.

(** The warnings of a run are among three: the two of the parameter check
    and the one about the stored conversion.  Without metadata there is
    none; with an explicit conversion there is not the third; and a run
    that calls the pipeline emits the third exactly when it read the
    conversion from the metadata and the [except] branch was taken. *)
Theorem predict_labels_warnings self lc input export pinfo w r w' :
  predict_labels self lc input export pinfo w = (r, w') →
  ∃ ws, warnings w' = warnings w ++ ws ∧
    (∀ msg, msg ∈ ws →
       msg = quality_mismatch_msg ∨ msg = template_mismatch_msg ∨
       msg = no_label_conversion_msg) ∧
    (pinfo = None → ws = []) ∧
    (is_Some lc → no_label_conversion_msg ∉ ws) ∧
    (pipeline_calls w' ≠ pipeline_calls w →
       (no_label_conversion_msg ∈ ws ↔
        lc = None ∧ ∃ info, pinfo = Some info ∧
                            (label_conversion_from_info info).2 = true)).
Proof.
  intros Hrun. pose proof conversion_msg_differs as [Hq Ht].
  apply predict_labels_trace in Hrun
    as (ws & Hmsgs & Hnone & [[Hw Hc]|[Hw Hc]]).
  - exists ws. split; [done|]. split; [intros msg ?%Hmsgs; tauto|].
    split; [done|]. split; [|done].
    intros _ [?|?]%Hmsgs; congruence.
  - exists (ws ++ conversion_warnings lc pinfo). split; [done|].
    assert (no_label_conversion_msg ∈ ws ++ conversion_warnings lc pinfo ↔
            lc = None ∧ ∃ info, pinfo = Some info ∧
                                (label_conversion_from_info info).2 = true)
      as Hiff.
    { rewrite elem_of_app. unfold conversion_warnings. split.
      - intros [[?|?]%Hmsgs|Hin]; [congruence|congruence|].
        destruct lc as [m|], pinfo as [info|];
          try by apply elem_of_nil in Hin.
        destruct (label_conversion_from_info info).2 eqn:Hfailed;
          [|by apply elem_of_nil in Hin].
        split; [done|]. by exists info.
      - intros (-> & info & -> & ->). right. by left. }
    split; [|split; [|split; [|done]]].
    + intros msg [?%Hmsgs|Hin]%elem_of_app; [tauto|].
      unfold conversion_warnings in Hin.
      destruct lc as [m|], pinfo as [info|]; try by apply elem_of_nil in Hin.
      destruct (label_conversion_from_info info).2; [|by apply elem_of_nil in Hin].
      apply list_elem_of_singleton in Hin. tauto.
    + intros ->. rewrite (Hnone eq_refl). unfold conversion_warnings.
      by destruct lc.
    + intros [m ->] [Hlc _]%Hiff. done.
Qed.

Lemma label_mismatch_refused self lc input export pinfo w r w' m t rest :
  predict_labels self lc input export pinfo w = (r, w') →
  conversion_in_effect lc pinfo = Some m →
  pipeline_calls w' = pipeline_calls w ++ (Predict, t) :: rest →
  ¬ Forall (λ label, is_Some (m !! label)) (predict (pipeline self) t) →
  r = Raise (ValueError [Str label_mismatch_msg]) ∧ sorting w' = sorting w.
Proof.
  intros Hrun Hm Hcall Hbad.
  apply predict_labels_summary in Hrun
    as [(e & _ & Hc & _)|(d & _ & _ & Hc & Hrest)].
  { rewrite Hc in Hcall. by apply app_cons_not_nil in Hcall. }
  rewrite Hc in Hcall. apply app_inv_head in Hcall. injection Hcall as <- _.
  rewrite Hm in Hrest. simpl in Hrest.
  destruct (mapM _ _) as [labels|] eqn:Hmap.
  - destruct Hbad. apply (mapM_is_Some_1 (λ label, m !! label)). by eexists.
  - by destruct Hrest as (-> & -> & _).
Qed.

(** When the metadata stores under "label_conversion" something that is no
    dict, a run without explicit conversion whose pipeline predicts any
    label at all raises the "label mismatch" error: the conversion in
    effect is the empty dict.  The sorting is as before and the warning
    about the stored conversion has been emitted. *)
Theorem malformed_conversion_refuses_labels self input export info w r w' t rest v :
  py_getitem info "label_conversion" = Return v →
  (∀ items, v ≠ PDict items) →
  predict_labels self None input export (Some info) w = (r, w') →
  pipeline_calls w' = pipeline_calls w ++ (Predict, t) :: rest →
  predict (pipeline self) t ≠ [] →
  r = Raise (ValueError [Str label_mismatch_msg]) ∧
  sorting w' = sorting w ∧
  no_label_conversion_msg ∈ new_warnings w w'.
Proof.
  intros Hget Hv Hrun Hcall Hraw.
  assert (label_conversion_from_info info = (Some ∅, true)) as Hconv.
  { unfold label_conversion_from_info. rewrite Hget.
    destruct v; try done. by destruct (Hv d). }
  destruct (label_mismatch_refused self None input export (Some info) w r w' ∅
              t rest Hrun) as [-> ->]; try done.
  { simpl. by rewrite Hconv. }
  { intros Hall. destruct (predict (pipeline self) t) as [|z raw]; [done|].
    apply Forall_cons in Hall as [[x Hx] _]. by rewrite lookup_empty in Hx. }
  split; [done|]. split; [done|].
  apply predict_labels_trace in Hrun
    as (ws & _ & _ & [[_ Hc]|[Hw _]]).
  - rewrite Hc in Hcall. by apply app_cons_not_nil in Hcall.
  - rewrite (new_warnings_app _ _ _ Hw). apply elem_of_app. right.
    unfold conversion_warnings. rewrite Hconv. by left.
Qed.

End Properties.

(** * Concrete runs *)

Section Runs.
Import Example.
#[local] Existing Instance lib.

(** In the example library the cast to float32 keeps a value, so that a
    sanitized cell is the cell itself, or NaN for an infinite one. *)
Lemma sanitized_cell_lib ct cd :
  sanitized_cell ct cd → ct = if np_isinf cd then NaN else cd.
Proof. by intros (x & -> & _ & ->). Qed.

Lemma sanitized_table_lib t d :
  sanitized_table t d →
  rows t = (λ r : key * list cell,
              (r.1, (λ c, if np_isinf c then NaN else c) <$> r.2)) <$> rows d.
Proof.
  intros [_ Hrows]. induction Hrows as [|[u ct] [u' cd] lt ld [Hu Hc] _ IH]; [done|].
  simpl in *. subst u'. rewrite IH. do 2 f_equal.
  clear -Hc. induction Hc as [|x y lx ly Hxy _ IHc]; [done|].
  simpl. by rewrite IHc, (sanitized_cell_lib _ _ Hxy).
Qed.

Lemma no_units_present_witness :
  _get_metrics_for_classification (__init__ analyzer model) world_other_units
    = (Raise (ValueError [Str no_units_msg]), world_other_units).
Proof.
  apply (no_units_present (__init__ analyzer model) world_other_units table).
  - vm_compute. reflexivity.
  - vm_compute. reflexivity.
Defined.

(** C6, as stated, fails: the model requires [c], which the merged table
    lacks, yet no row belongs to a current unit and the error raised is
    the "no units present" one. *)
Lemma missing_metrics_masked_by_no_units :
  merged (__init__ analyzer model_abc) = Return table ∧
  ¬ Forall (λ c, c ∈ columns table) (required_metrics (__init__ analyzer model_abc)) ∧
  _get_metrics_for_classification (__init__ analyzer model_abc) world_other_units
    = (Raise (ValueError [Str no_units_msg]), world_other_units).
Proof.
  split; [by vm_compute|]. split; [|by vm_compute].
  intros HF%(bool_decide_pack _). by vm_compute in HF.
Qed.

Lemma missing_metrics_named_witness :
  ∃ missing,
    _get_metrics_for_classification (__init__ analyzer model_abc) world0
      = (Raise (ValueError [Str missing_metrics_msg; Missing missing]), world0) ∧
    ∀ c, c ∈ missing ↔ c ∈ ["a"; "b"; "c"] ∧ c ∉ ["a"; "b"].
Proof.
  apply (missing_metrics_named (__init__ analyzer model_abc) world0 table).
  - vm_compute. reflexivity.
  - vm_compute. discriminate.
  - intros HF%(bool_decide_pack _). by vm_compute in HF.
Defined.

(** The error of the example names [c] and nothing else. *)
Example missing_metrics_names_c :
  _get_metrics_for_classification (__init__ analyzer model_abc) world0
    = (Raise (ValueError [Str missing_metrics_msg; Missing {[ "c" ]}]), world0).
Proof. vm_compute. reflexivity. Qed.

Lemma label_mismatch_raises_witness :
  ∃ r w',
    predict_labels (__init__ analyzer model_with_2) (Some noise_good) (Some table)
      false None world0 = (r, w') ∧
    r = Raise (ValueError [Str label_mismatch_msg]) ∧
    sorting w' = sorting world0 ∧
    properties (sorting w') !! "label_prediction" = None ∧
    properties (sorting w') !! "label_confidence" = None.
Proof.
  eexists _, _. split; [vm_compute; reflexivity|].
  eapply (label_mismatch_raises (__init__ analyzer model_with_2) (Some noise_good)
            (Some table) false None world0 _ _ noise_good).
  - vm_compute. reflexivity.
  - reflexivity.
  - vm_compute. reflexivity.
  - intros HF%(bool_decide_pack _). by vm_compute in HF.
Defined.

(** The explicit conversion of the witness may as well come from the
    metadata: the stored keys "0" and "1" do not cover the label 2. *)
Example label_mismatch_with_stored_conversion :
  ∃ w',
    predict_labels (__init__ analyzer model_with_2) None (Some table) false
      (Some model_info) world0
      = (Raise (ValueError [Str label_mismatch_msg]), w') ∧
    conversion_in_effect None (Some model_info) = Some noise_good ∧
    sorting w' = sorting world0.
Proof. eexists. split; [vm_compute; reflexivity|]. by vm_compute. Qed.

(** C2, as stated, fails: the caller's table has the columns a, b, the
    model requires a, b, c, and the table reaches [predict] as it came. *)
Lemma caller_table_reaches_model_as_is :
  ∃ t, (Predict, t) ∈ pipeline_calls
         (predict_labels (__init__ analyzer model_abc) None (Some table) false None
            world0).2 ∧
       columns t = ["a"; "b"] ∧
       feature_names_in_ model_abc = ["a"; "b"; "c"] ∧
       columns t ≠ feature_names_in_ model_abc.
Proof.
  eexists. split; [vm_compute; by left|]. by vm_compute.
Qed.

Lemma model_input_columns_witness :
  ∃ r w' calls,
    predict_labels (__init__ analyzer model) None None false None world0 = (r, w') ∧
    pipeline_calls w' = pipeline_calls world0 ++ calls ∧
    calls ≠ [] ∧
    ∀ c, c ∈ calls →
      columns c.2 = ["b"; "a"] ∧
      ∃ rest, rows c.2 = (KInt 0, [NaN; Num (1 # 2)]) :: rest.
Proof.
  destruct (model_input_columns analyzer model None None false None world0
              (predict_labels (__init__ analyzer model) None None false None world0).1
              (predict_labels (__init__ analyzer model) None None false None world0).2)
    as (calls & Hcalls & Hcols).
  - vm_compute. reflexivity.
  - eexists _, _, calls. split; [vm_compute; reflexivity|].
    split; [exact Hcalls|]. split.
    { intros ->. vm_compute in Hcalls. discriminate. }
    intros c Hc. destruct (Hcols c Hc) as (m & Hm & Hrest).
    assert (merged (__init__ analyzer model) = Return table) as Hm'
      by (vm_compute; reflexivity).
    rewrite Hm' in Hm. injection Hm as <-. clear Hm'.
    destruct Hrest as [Hnames Hcells].
    + apply (bool_decide_unpack _). by vm_compute.
    + split; [exact Hnames|].
      assert (rectangular table) as Hrect by (repeat constructor).
      apply Hcells in Hrect. clear Hcells.
      assert (filter (λ r : key * list cell, r.1 ∈ unit_ids (sorting world0))
                     (rows table) = rows table) as E by (vm_compute; reflexivity).
      rewrite E in Hrect. clear E.
      apply Forall2_cons_inv_r in Hrect as ([u cells] & rest & [Hu Hrow] & _ & ->).
      exists rest. simpl in Hu, Hrow. subst u.
      apply Forall2_cons_inv_l in Hrow as (ct1 & cells1 & Hb & Hrow & ->).
      apply Forall2_cons_inv_l in Hrow as (ct2 & cells2 & Ha & Hrow & ->).
      apply Forall2_nil_inv_l in Hrow as ->.
      destruct (Hb 1%nat eq_refl) as (cd & [= <-] & ->%sanitized_cell_lib).
      destruct (Ha 0%nat eq_refl) as (cd & [= <-] & ->%sanitized_cell_lib).
      reflexivity.
Defined.

(** C3, as stated, fails: on metadata without the training parameters the
    check raises a [KeyError], and [predict_labels] stops there, before the
    pipeline is called. *)
Lemma check_params_raises_on_bare_metadata :
  _check_params_for_classification (__init__ analyzer model) (PDict []) world0
    = (Raise (KeyError "metric_params"), world0) ∧
  predict_labels (__init__ analyzer model) None (Some table) false (Some (PDict []))
    world0 = (Raise (KeyError "metric_params"), world0).
Proof. split; vm_compute; reflexivity. Qed.

Lemma check_params_only_warns_witness :
  ∃ w' r w'',
    _check_params_for_classification (__init__ analyzer model) model_info world0
      = (Return tt, w') ∧
    only_warns [quality_mismatch_msg] world0 w' ∧
    quality_mismatch (__init__ analyzer model) model_info ∧
    ¬ template_mismatch (__init__ analyzer model) model_info ∧
    predict_labels (__init__ analyzer model) None (Some table) false (Some model_info)
      world0 = (r, w'') ∧
    pipeline_calls w'' = [(Predict, sanitize table); (PredictProba, sanitize table)].
Proof.
  destruct (check_params_only_warns (__init__ analyzer model) model_info world0)
    as (ws & w' & Hchk & Hw & Hq & Ht & Honly & Hgo).
  - split; eexists; vm_compute; reflexivity.
  - vm_compute. exact I.
  - vm_compute in Hchk. injection Hchk as <-.
    destruct Hw as (_ & _ & _ & Hws). simpl in Hws. subst ws.
    destruct (Hgo None (Some table) false table eq_refl) as (r & w'' & Hrun & Hcalls).
    eexists _, r, w''. split; [reflexivity|]. split; [done|].
    split; [apply Hq; by left|]. split; [|done].
    intros Hin%Ht. by apply list_elem_of_singleton in Hin.
Defined.

(** On the example the quality parameters differ and the check warns once. *)
Example check_params_warns_quality :
  _check_params_for_classification (__init__ analyzer model) model_info world0
    = (Return tt,
       {| sorting := sorting world0; fs := fs world0;
          warnings := [quality_mismatch_msg]; pipeline_calls := [] |}).
Proof. vm_compute. reflexivity. Qed.

Lemma label_conversion_round_trip_witness :
  ∃ units w' labels,
    predict_labels (__init__ analyzer model) (Some noise_good) (Some table) false
      None world0 = (Return units, w') ∧
    Forall2 (λ raw label, noise_good !! raw = Some label) [0; 1; 0] labels ∧
    properties (sorting w') !! "label_prediction" = Some (Labels labels) ∧
    units.*1 = index table ∧ (units.*2).*1 = labels.
Proof.
  destruct (label_conversion_round_trip (__init__ analyzer model) noise_good
              (Some table) false None world0
              (match (predict_labels (__init__ analyzer model) (Some noise_good)
                        (Some table) false None world0).1 with
               | Return units => units
               | Raise _ => []
               end)
              (predict_labels (__init__ analyzer model) (Some noise_good)
                 (Some table) false None world0).2)
    as (d & labels & Hacq & Hlabels & Hprop & Hunits).
  - vm_compute. reflexivity.
  - simpl in Hacq. subst d. eexists _, _, labels.
    split; [vm_compute; reflexivity|]. repeat (split; [done|]).
    apply Hunits.
    + apply (bool_decide_unpack _). by vm_compute.
    + reflexivity.
    + reflexivity.
Defined.

(** The round trip of the specification: the raw predictions 0, 1, 0 come
    back as noise, good, noise, for the units 0, 1, 2 in that order, and
    "label_prediction" holds the same sequence. *)
Example noise_good_noise :
  ∃ w',
    predict_labels (__init__ analyzer model) (Some noise_good) (Some table) false
      None world0
      = (Return [(KInt 0, (PStr "noise", 9 # 10)); (KInt 1, (PStr "good", 8 # 10));
                 (KInt 2, (PStr "noise", 6 # 10))], w') ∧
    properties (sorting w') !! "label_prediction"
      = Some (Labels [PStr "noise"; PStr "good"; PStr "noise"]) ∧
    properties (sorting w') !! "label_confidence"
      = Some (Floats [9 # 10; 8 # 10; 6 # 10]) ∧
    index table = [KInt 0; KInt 1; KInt 2].
Proof. eexists. split; [vm_compute; reflexivity|]. by vm_compute. Qed.

Lemma confidence_is_row_maximum_witness :
  ∃ units w' t labels label,
    predict_labels (__init__ analyzer model) None None false None world0
      = (Return units, w') ∧
    pipeline_calls w' = [(Predict, t); (PredictProba, t)] ∧
    columns t = ["b"; "a"] ∧
    rows t = [(KInt 0, [NaN; Num (1 # 2)]); (KInt 1, [Num (1 # 4); Num 3]);
              (KInt 2, [Num 0; NaN])] ∧
    properties (sorting w') !! "label_prediction" = Some (Labels labels) ∧
    labels !! 1%nat = Some label ∧
    dict_get (KInt 1) units = Some (label, 8 # 10) ∧
    (2 # 10 <= 8 # 10)%Q.
Proof.
  destruct (confidence_is_row_maximum (__init__ analyzer model) None None false
              None world0
              (match (predict_labels (__init__ analyzer model) None None false None
                        world0).1 with
               | Return units => units
               | Raise _ => []
               end)
              (predict_labels (__init__ analyzer model) None None false None
                 world0).2)
    as (d & t & labels & Hacq & Hsan & Hcalls & _ & Hprop & Hrows).
  - vm_compute. reflexivity.
  - vm_compute in Hacq. injection Hacq as <-.
    destruct (Hrows) with (i := 1%nat) (u := KInt 1)
      (row := {| first_class := 2 # 10; other_classes := [8 # 10] |})
      as (label & Hlabel & Hget & _ & Hmax).
    + apply (bool_decide_unpack _). by vm_compute.
    + reflexivity.
    + reflexivity.
    + reflexivity.
    + reflexivity.
    + eexists _, _, t, labels, label.
      split; [vm_compute; reflexivity|]. split; [exact Hcalls|].
      split; [by destruct Hsan as [-> _]|].
      split; [by rewrite (sanitized_table_lib _ _ Hsan)|].
      split; [exact Hprop|]. split; [exact Hlabel|]. split; [exact Hget|].
      apply (Hmax (2 # 10)). by left.
Defined.

(** On the example each unit gets the larger of its two probabilities. *)
Example confidences_of_example :
  (predict_labels (__init__ analyzer model) None None false None world0).1
    = Return [(KInt 0, (PInt 0, 9 # 10)); (KInt 1, (PInt 1, 8 # 10));
              (KInt 2, (PInt 0, 6 # 10))].
Proof. vm_compute. reflexivity. Qed.

Lemma export_to_phy_contract_witness :
  _export_to_phy (__init__ analyzer model) units world0
    = (Raise (ValueError [Str phy_folder_msg]), world0) ∧
  _export_to_phy (__init__ analyzer model) units world_phy_missing
    = (Raise (ValueError [Str phy_folder_msg]), world_phy_missing) ∧
  ∃ w' t,
    _export_to_phy (__init__ analyzer model) units world_phy = (Return tt, w') ∧
    files (fs w') = {[ "phy/cluster_prediction.tsv" := CsvFile t ]} ∧
    sep t = String (ascii_of_nat 9) EmptyString ∧
    index_label t = "cluster_id" ∧
    header t = ["prediction"; "probability"] ∧
    body t = units.
Proof.
  split; [|split].
  - apply (export_to_phy_contract (__init__ analyzer model) units world0).
    left. vm_compute. reflexivity.
  - apply (export_to_phy_contract (__init__ analyzer model) units world_phy_missing).
    right. exists "gone". split; [vm_compute; reflexivity|].
    intros Hin%(bool_decide_pack _). by vm_compute in Hin.
  - destruct (export_to_phy_contract (__init__ analyzer model) units world_phy)
      as [_ Hok].
    destruct (Hok "phy") as (w' & t & Hrun & Hfiles & Hsep & Hlabel & Hheader & Hbody & _).
    + vm_compute. reflexivity.
    + apply (bool_decide_unpack _). by vm_compute.
    + exists w', t. repeat (split; [done|]). done.
Defined.

Lemma export_failure_keeps_properties_witness :
  ∃ r w',
    predict_labels (__init__ analyzer model) (Some noise_good) (Some table) true
      None world_phy_missing = (r, w') ∧
    r = Raise (ValueError [Str phy_folder_msg]) ∧
    properties (sorting w') !! "label_prediction"
      = Some (Labels [PStr "noise"; PStr "good"; PStr "noise"]) ∧
    properties (sorting w') !! "label_confidence"
      = Some (Floats (row_max <$> probabilities)) ∧
    fs w' = fs world_phy_missing.
Proof.
  eexists _, _. split; [vm_compute; reflexivity|].
  eapply (export_failure_keeps_properties (__init__ analyzer model) (Some noise_good)
            (Some table) None world_phy_missing _ _ (sanitize table)).
  - vm_compute. reflexivity.
  - vm_compute. reflexivity.
  - vm_compute. reflexivity.
  - right. exists "gone". split; [vm_compute; reflexivity|].
    intros Hin%(bool_decide_pack _). by vm_compute in Hin.
Defined.

(** C8: in a folder with the artifact files a.skops and b.skops, loading
    returns the model of a.skops, the first one listed, and warns, but the
    warning is the fixed text with the placeholders [{folder}] and
    [{skops_file}] left as they are: it names neither the file chosen nor
    the folder.  In a folder without artifact file, loading is refused. *)
Theorem several_models_warning_names_no_file :
  (∃ w',
     _load_model_from_folder "models" None world_two_models
       = (Return (model, None), w') ∧
     warnings w' = [several_skops_msg; no_model_info_msg] ∧
     occurs_in "{skops_file}" several_skops_msg = true ∧
     Forall (λ msg, occurs_in "a.skops" msg = false) (warnings w')) ∧
  _load_model_from_folder "models" None world_no_model
    = (Raise (AssertionError "There are no '.skops' files in the folder models"),
       world_no_model).
Proof.
  split; [|vm_compute; reflexivity].
  eexists. split; [vm_compute; reflexivity|]. split; [by vm_compute|].
  split; [by vm_compute|]. simpl. repeat constructor.
Qed.

(** ** Further runs *)

Lemma load_model_only_warns_witness :
  ∃ r w',
    _load_model_from_folder "models" None world_two_models = (r, w') ∧
    sorting w' = sorting world_two_models ∧ fs w' = fs world_two_models ∧
    pipeline_calls w' = pipeline_calls world_two_models ∧
    ∃ ws, warnings w' = warnings world_two_models ++ ws ∧
          (ws = [] ∨ ws = [several_skops_msg] ∨ ws = [no_model_info_msg] ∨
           ws = [several_skops_msg; no_model_info_msg]).
Proof.
  eexists _, _. split; [vm_compute; reflexivity|].
  eapply (load_model_only_warns "models" None world_two_models).
  vm_compute. reflexivity.
Defined.

(** The refusals of the loader on concrete folders: the folder is named
    without its trailing slash, and an absolute file name is looked up as
    it is. *)
Lemma load_model_refusals_witness :
  _load_model_from_folder "nowhere/" None world_one_model
    = (Raise (AssertionError "The folder nowhere, does not exist."), world_one_model) ∧
  _load_model_from_folder "models//" (Some "other.skops") world_one_model
    = (Raise (AssertionError "Model file models/other.skops not found."),
       world_one_model) ∧
  _load_model_from_folder "models" (Some "/store/other.skops") world_one_model
    = (Raise (AssertionError "Model file /store/other.skops not found."),
       world_one_model) ∧
  _load_model_from_folder "./models/" None world_no_model
    = (Raise (AssertionError "There are no '.skops' files in the folder models"),
       world_no_model).
Proof.
  split; [|split; [|split]].
  - apply (proj2 (load_model_refusals "nowhere/" None world_one_model _ _)).
    split; [done|]. left. split; [|reflexivity].
    intros Hin%(bool_decide_pack _). by vm_compute in Hin.
  - apply (proj2 (load_model_refusals "models//" (Some "other.skops")
                    world_one_model _ _)).
    split; [done|]. right; left.
    split; [apply (bool_decide_unpack _); by vm_compute|].
    exists "other.skops". split; [done|]. split; [vm_compute|]; reflexivity.
  - apply (proj2 (load_model_refusals "models" (Some "/store/other.skops")
                    world_one_model _ _)).
    split; [done|]. right; left.
    split; [apply (bool_decide_unpack _); by vm_compute|].
    exists "/store/other.skops". split; [done|]. split; [vm_compute|]; reflexivity.
  - apply (proj2 (load_model_refusals "./models/" None world_no_model _ _)).
    split; [done|]. right; right.
    split; [apply (bool_decide_unpack _); by vm_compute|].
    split; [done|]. split; [vm_compute|]; reflexivity.
Defined.

(** A file name that is an absolute path is loaded from where it says, not
    from the folder. *)
Lemma load_model_returns_witness :
  ∃ info w',
    _load_model_from_folder "models/" (Some "/store/other.skops") world_null_info
      = (Return (model_abc, info), w') ∧
    "models" ∈ dirs (fs world_null_info) ∧
    files (fs world_null_info) !! "/store/other.skops" = Some (SkopsFile model_abc) ∧
    several_skops_msg ∉ new_warnings world_null_info w'.
Proof.
  eexists _, _. split; [vm_compute; reflexivity|].
  destruct (load_model_returns "models/" (Some "/store/other.skops") world_null_info
              model_abc _ _ eq_refl) as (Hdir & file & Hfile & Hname & Hsev).
  split; [exact Hdir|]. split.
  - vm_compute in Hname. subst file. exact Hfile.
  - intros Hin%Hsev. by destruct Hin.
Defined.

(** Without a file name the first artifact file listed is loaded. *)
Example load_model_first_listed :
  ∃ w',
    _load_model_from_folder "models" None world_one_model
      = (Return (model, Some model_info), w') ∧
    warnings w' = [].
Proof. eexists. split; [vm_compute; reflexivity|]. reflexivity. Qed.

(** With a file name the named file is loaded, whatever else is there. *)
Example load_model_named :
  ∃ w',
    _load_model_from_folder "models" (Some "b.skops") world_two_models
      = (Return (model_abc, None), w') ∧
    warnings w' = [no_model_info_msg].
Proof. eexists. split; [vm_compute; reflexivity|]. reflexivity. Qed.

(** A metadata file that holds [null] gives no metadata, and no warning. *)
Lemma load_model_metadata_witness :
  ∃ w',
    _load_model_from_folder "models" None world_null_info
      = (Return (model, None), w') ∧
    files (fs world_null_info) !! "models/model_info.json" = Some (JsonFile PNone) ∧
    no_model_info_msg ∉ new_warnings world_null_info w'.
Proof.
  eexists. split; [vm_compute; reflexivity|]. split; [vm_compute; reflexivity|].
  pose proof (load_model_metadata "models" None world_null_info model None _ eq_refl)
    as Hm.
  assert (files (fs world_null_info)
            !! str (truediv (Path "models") (Path "model_info.json"))
          = Some (JsonFile PNone)) as E by (vm_compute; reflexivity).
  rewrite E in Hm. by destruct Hm as (v & _ & Hno & _).
Defined.

Lemma check_params_without_extensions_witness :
  _check_params_for_classification (__init__ analyzer_bare model) (PList []) world0
    = (Return tt, world0).
Proof.
  apply (check_params_without_extensions (__init__ analyzer_bare model)).
  - vm_compute. reflexivity.
  - vm_compute. reflexivity.
Defined.

Lemma check_params_outcomes_witness :
  ∃ r w' ws,
    _check_params_for_classification (__init__ analyzer model) model_info_bare world0
      = (r, w') ∧
    only_warns ws world0 w' ∧
    (ws = [] ∨ ws = [quality_mismatch_msg] ∨ ws = [template_mismatch_msg] ∨
     ws = [quality_mismatch_msg; template_mismatch_msg]) ∧
    (template_mismatch_msg ∈ ws → r = Return tt) ∧
    (∀ e, r = Raise e →
       e = TypeError ∨
       ∃ k, e = KeyError k ∧
            k ∈ quality_path ++ template_path ++ ["qm_params"; "metrics_kwargs"]).
Proof.
  destruct (check_params_outcomes (__init__ analyzer model) model_info_bare world0
              (_check_params_for_classification (__init__ analyzer model)
                 model_info_bare world0).1
              (_check_params_for_classification (__init__ analyzer model)
                 model_info_bare world0).2) as (ws & Hrest).
  - vm_compute. reflexivity.
  - eexists _, _, ws. split; [vm_compute; reflexivity|]. exact Hrest.
Defined.

Lemma get_metrics_failures_witness :
  ∃ e w',
    _get_metrics_for_classification (__init__ analyzer model_abc) world0
      = (Raise e, w') ∧
    w' = world0 ∧
    (merged (__init__ analyzer model_abc) = Raise e ∨
     ∃ m, merged (__init__ analyzer model_abc) = Return m ∧
       ((e = ValueError [Str no_units_msg] ∧
         Forall (λ u, u ∉ unit_ids (sorting world0)) (index m)) ∨
        (∃ missing c,
           e = ValueError [Str missing_metrics_msg; Missing missing] ∧
           c ∈ missing ∧ c ∈ required_metrics (__init__ analyzer model_abc) ∧
           c ∉ columns m))).
Proof.
  eexists _, _. split; [vm_compute; reflexivity|].
  eapply (get_metrics_failures (__init__ analyzer model_abc) world0).
  vm_compute. reflexivity.
Defined.

Lemma get_metrics_rows_witness :
  ∃ d,
    _get_metrics_for_classification (__init__ analyzer model) world0
      = (Return d, world0) ∧
    index d = [KInt 0; KInt 1; KInt 2] ∧
    columns d = ["b"; "a"] ∧
    rows d !! 0%nat = Some (KInt 0, [PosInf; Num (1 # 2)]).
Proof.
  eexists. split; [vm_compute; reflexivity|].
  assert (_get_metrics_for_classification (__init__ analyzer model) world0
          = (Return _, world0)) as Hrun by (vm_compute; reflexivity).
  destruct (get_metrics_rows (__init__ analyzer model) world0 _ world0 Hrun)
    as (_ & m & Hm & Hidx & _ & _ & _ & Hcells).
  assert (merged (__init__ analyzer model) = Return table) as Hm'
    by (vm_compute; reflexivity).
  rewrite Hm' in Hm. injection Hm as <-. clear Hm'.
  destruct Hcells as [Hcols Hrows].
  { apply (bool_decide_unpack _). by vm_compute. }
  { repeat constructor. }
  split; [rewrite Hidx; vm_compute; reflexivity|]. split; [exact Hcols|].
  assert (filter (λ r : key * list cell, r.1 ∈ unit_ids (sorting world0))
                 (rows table) = rows table) as E by (vm_compute; reflexivity).
  rewrite E in Hrows. clear E.
  apply Forall2_cons_inv_r in Hrows as ([u cells] & rest & [Hu Hrow] & _ & ->).
  simpl in Hu, Hrow. subst u.
  apply Forall2_cons_inv_l in Hrow as (x1 & cells1 & Hb & Hrow & ->).
  apply Forall2_cons_inv_l in Hrow as (x2 & cells2 & Ha & Hrow & ->).
  apply Forall2_nil_inv_l in Hrow as ->.
  pose proof (Hb 1%nat eq_refl) as [= <-]. pose proof (Ha 0%nat eq_refl) as [= <-].
  reflexivity.
Defined.

Lemma predict_labels_sorting_frame_witness :
  ∃ r w',
    predict_labels (__init__ analyzer model) (Some noise_good) None true
      (Some model_info) world_phy_missing = (r, w') ∧
    unit_ids (sorting w') = unit_ids (sorting world_phy_missing) ∧
    annotations (sorting w') = annotations (sorting world_phy_missing) ∧
    (∀ name, name ≠ "label_prediction" → name ≠ "label_confidence" →
       properties (sorting w') !! name
         = properties (sorting world_phy_missing) !! name) ∧
    (sorting w' = sorting world_phy_missing ∨
     ∃ labels probs,
       properties (sorting w') !! "label_prediction" = Some (Labels labels) ∧
       properties (sorting w') !! "label_confidence" = Some (Floats probs)).
Proof.
  eexists _, _. split; [vm_compute; reflexivity|].
  eapply (predict_labels_sorting_frame (__init__ analyzer model) (Some noise_good)
            None true (Some model_info) world_phy_missing).
  vm_compute. reflexivity.
Defined.

Lemma predict_labels_files_frame_witness :
  ∃ units w',
    predict_labels (__init__ analyzer model) None None true None world_phy
      = (Return units, w') ∧
    dirs (fs w') = dirs (fs world_phy) ∧
    default [] (listing (fs world_phy) !! "phy") = [] ∧
    "cluster_prediction.tsv" ∈ default [] (listing (fs w') !! "phy").
Proof.
  eexists _, _. split; [vm_compute; reflexivity|].
  assert (predict_labels (__init__ analyzer model) None None true None world_phy
          = (Return _, _)) as Hrun by (vm_compute; reflexivity).
  destruct (predict_labels_files_frame (__init__ analyzer model) None None true None
              world_phy _ _ Hrun) as (Hdirs & _ & _ & _ & _ & Hlisted).
  split; [exact Hdirs|]. split; [reflexivity|].
  destruct (Hlisted _ eq_refl eq_refl) as (p & Hp & Hin).
  vm_compute in Hp. injection Hp as <-. exact Hin.
Defined.

Lemma predict_labels_exports_result_witness :
  ∃ units w',
    predict_labels (__init__ analyzer model) (Some noise_good) None true None
      world_phy = (Return units, w') ∧
    ∃ p, annotations (sorting world_phy) !! "phy_folder" = Some p ∧
      p ∈ dirs (fs world_phy) ∧
      files (fs w') !! (p +:+ "/cluster_prediction.tsv")
        = Some (CsvFile {| sep := String (ascii_of_nat 9) EmptyString;
                           index_label := "cluster_id";
                           header := ["prediction"; "probability"];
                           body := units |}) ∧
      ∀ path, path ≠ p +:+ "/cluster_prediction.tsv" →
        files (fs w') !! path = files (fs world_phy) !! path.
Proof.
  eexists _, _. split; [vm_compute; reflexivity|].
  eapply (predict_labels_exports_result (__init__ analyzer model) (Some noise_good)
            None None world_phy).
  vm_compute. reflexivity.
Defined.

Lemma result_keys_witness :
  ∃ units w',
    predict_labels (__init__ analyzer model) None (Some table_twice) false None
      world0 = (Return units, w') ∧
    NoDup units.*1 ∧
    (∀ u, u ∈ units.*1 → u ∈ index table_twice) ∧
    (∀ u, u ∈ index table_twice → u ∈ units.*1).
Proof.
  destruct (result_keys (__init__ analyzer model) None (Some table_twice) false None
              world0
              (match (predict_labels (__init__ analyzer model) None
                        (Some table_twice) false None world0).1 with
               | Return units => units
               | Raise _ => []
               end)
              (predict_labels (__init__ analyzer model) None (Some table_twice)
                 false None world0).2)
    as (d & Hacq & Hnd & Hsub & Hall).
  - vm_compute. reflexivity.
  - simpl in Hacq. subst d. eexists _, _.
    split; [vm_compute; reflexivity|]. split; [exact Hnd|]. split; [exact Hsub|].
    apply Hall; reflexivity.
Defined.

Lemma result_last_row_wins_witness :
  ∃ units w' labels,
    predict_labels (__init__ analyzer model) None (Some table_twice) false None
      world0 = (Return units, w') ∧
    properties (sorting w') !! "label_prediction" = Some (Labels labels) ∧
    length labels = 3%nat ∧
    index table_twice = [KInt 0; KInt 1; KInt 0] ∧
    dict_get (KInt 0) units = Some (PInt 0, 6 # 10).
Proof.
  destruct (result_last_row_wins (__init__ analyzer model) None (Some table_twice)
              false None world0
              (match (predict_labels (__init__ analyzer model) None
                        (Some table_twice) false None world0).1 with
               | Return units => units
               | Raise _ => []
               end)
              (predict_labels (__init__ analyzer model) None (Some table_twice)
                 false None world0).2)
    as (d & labels & Hacq & Hprop & Hlast).
  - vm_compute. reflexivity.
  - simpl in Hacq. subst d.
    assert (labels = [PInt 0; PInt 1; PInt 0]) as ->.
    { vm_compute in Hprop. by injection Hprop as <-. }
    eexists _, _, _. split; [vm_compute; reflexivity|].
    split; [exact Hprop|]. split; [reflexivity|]. split; [reflexivity|].
    apply (Hlast 2%nat (KInt 0) (PInt 0)
             {| first_class := 6 # 10; other_classes := [4 # 10] |}).
    + reflexivity.
    + intros j Hj Hlook. apply lookup_lt_Some in Hlook. simpl in Hlook. lia.
    + reflexivity.
    + reflexivity.
Defined.

Lemma result_units_are_current_witness :
  ∃ units w',
    predict_labels (__init__ analyzer model) None None false None world0
      = (Return units, w') ∧
    Forall (λ u, u ∈ unit_ids (sorting world0)) units.*1 ∧
    unit_ids (sorting w') = unit_ids (sorting world0).
Proof.
  eexists _, _. split; [vm_compute; reflexivity|].
  eapply (result_units_are_current (__init__ analyzer model) None false None world0).
  vm_compute. reflexivity.
Defined.

Lemma model_table_is_sanitized_witness :
  ∃ t,
    (Predict, t) ∈ pipeline_calls
       (predict_labels (__init__ analyzer model) None (Some table) false None
          world0).2 ∧
    index t = index table ∧ columns t = columns table ∧
    rows t = [(KInt 0, [Num (1 # 2); NaN]); (KInt 1, [Num 3; Num (1 # 4)]);
              (KInt 2, [NaN; Num 0])].
Proof.
  destruct (model_table_is_sanitized (__init__ analyzer model) None (Some table)
              false None world0
              (predict_labels (__init__ analyzer model) None (Some table) false None
                 world0).1
              (predict_labels (__init__ analyzer model) None (Some table) false None
                 world0).2
              (Predict, sanitize table))
    as (d & Hacq & Hidx & Hcols & _).
  - apply surjective_pairing.
  - vm_compute. by left.
  - simpl in Hacq. subst d. exists (sanitize table).
    split; [vm_compute; by left|]. split; [exact Hidx|]. split; [exact Hcols|].
    reflexivity.
Defined.

Lemma stored_conversion_reads_keys_witness :
  ∃ m, label_conversion_from_info model_info = (Some m, false) ∧
    m !! 0 = Some (PStr "noise") ∧ m !! 1 = Some (PStr "good") ∧ m !! 2 = None.
Proof.
  destruct (stored_conversion_reads_keys model_info
              [("0", PStr "noise"); ("1", PStr "good")])
    as (m & Hm & Hdom & Hlast).
  - reflexivity.
  - repeat constructor; by eexists.
  - exists m. split; [exact Hm|]. split; [|split].
    + apply (Hlast 0%nat "0"); [reflexivity|reflexivity|].
      intros [|[|j]] kv Hj Hkv; [lia| |done]. by injection Hkv as <-.
    + apply (Hlast 1%nat "1"); [reflexivity|reflexivity|].
      by intros [|[|j]] kv Hj Hkv; [lia|lia|].
    + destruct (m !! 2) as [x|] eqn:Hx; [|done].
      assert (is_Some (m !! 2)) as Hs by by eexists.
      apply Hdom in Hs as (kv & Hin & Hkv).
      repeat (apply elem_of_cons in Hin as [->|Hin]; [by vm_compute in Hkv|]).
      by apply elem_of_nil in Hin.
Defined.

Lemma stored_conversion_stops_at_bad_key_witness :
  ∃ m, label_conversion_from_info model_info_bad_key = (Some m, true) ∧
    label_conversion_from_info (PDict [("label_conversion", PDict [("0", PStr "noise")])])
      = (Some m, false).
Proof.
  destruct (stored_conversion_stops_at_bad_key model_info_bad_key
              [("0", PStr "noise")] "x" (PStr "good") [("1", PStr "mua")])
    as (m & Hm & Hpre).
  - reflexivity.
  - repeat constructor; by eexists.
  - reflexivity.
  - exists m. split; [exact Hm|]. by apply Hpre.
Defined.

Lemma predict_labels_warnings_witness :
  ∃ r w' ws,
    predict_labels (__init__ analyzer_bare model) None (Some table) false
      (Some model_info_bare) world0 = (r, w') ∧
    warnings w' = warnings world0 ++ ws ∧
    no_label_conversion_msg ∈ ws.
Proof.
  destruct (predict_labels_warnings (__init__ analyzer_bare model) None (Some table)
              false (Some model_info_bare) world0
              (predict_labels (__init__ analyzer_bare model) None (Some table) false
                 (Some model_info_bare) world0).1
              (predict_labels (__init__ analyzer_bare model) None (Some table) false
                 (Some model_info_bare) world0).2)
    as (ws & Hws & _ & _ & _ & Hiff).
  - apply surjective_pairing.
  - eexists _, _, ws. split; [apply surjective_pairing|]. split; [exact Hws|].
    apply Hiff.
    + vm_compute. discriminate.
    + split; [done|]. exists model_info_bare. split; [done|]. reflexivity.
Defined.

(** Without stored conversion the labels stay the raw integers. *)
Example bare_metadata_keeps_raw_labels :
  ∃ w',
    predict_labels (__init__ analyzer_bare model) None (Some table) false
      (Some model_info_bare) world0
      = (Return [(KInt 0, (PInt 0, 9 # 10)); (KInt 1, (PInt 1, 8 # 10));
                 (KInt 2, (PInt 0, 6 # 10))], w') ∧
    warnings w' = [no_label_conversion_msg].
Proof. eexists. split; [vm_compute; reflexivity|]. reflexivity. Qed.

Lemma malformed_conversion_refuses_labels_witness :
  ∃ r w',
    predict_labels (__init__ analyzer_bare model) None (Some table) false
      (Some model_info_list) world0 = (r, w') ∧
    r = Raise (ValueError [Str label_mismatch_msg]) ∧
    sorting w' = sorting world0 ∧
    no_label_conversion_msg ∈ new_warnings world0 w'.
Proof.
  eexists _, _. split; [vm_compute; reflexivity|].
  eapply (malformed_conversion_refuses_labels (__init__ analyzer_bare model)
            (Some table) false model_info_list world0 _ _ (sanitize table)).
  - reflexivity.
  - intros items. discriminate.
  - vm_compute. reflexivity.
  - vm_compute. reflexivity.
  - vm_compute. discriminate.
Defined.

End Runs.
